(** * Agentic stock dashboard: the client's event handlers and the analysis pipeline

    The development embeds

    - [frontend/components/Chart.tsx] (module [Chart]): the series the chart
      effect hands to the charting library, in particular the volume bars;
    - [frontend/app/page.tsx] (module [Page]): the dashboard state, its three
      asynchronous handlers [loadMarketData], [handleAnalyze] and [pollTask],
      the render of the news panel, and the browser event loop that drives
      them (user events, settling promises, interval timers on a clock);
    - the analysis pipeline and its task registry (module [Backend]), whose
      code is not part of the sources at hand and is modelled from the
      specification.

    JavaScript values are kept as the code uses them: numbers are IEEE-754
    doubles ([PrimFloat.float]), optional fields are [option], and the
    truthiness tests of [||] and [?:] are the class [Truthy]. *)

From Stdlib Require Import ZArith NArith String Ascii List Bool Lia DecimalString.
From Stdlib Require Import Floats.
From stdpp Require Import gmap strings list.

Local Open Scope string_scope.

(** ** JavaScript runtime: truthiness, numbers, strings *)

Module JS.

(** [ToBoolean] on the types the dashboard tests with [||] and [?:]. *)
Class Truthy (A : Type) := truthy : A -> bool.

(** A string is falsy exactly when it is empty. *)
#[global] Instance truthy_string : Truthy string :=
  fun s => match s with EmptyString => false | String _ _ => true end.

(** A number is falsy exactly when it is [+0], [-0] or [NaN]. *)
#[global] Instance truthy_number : Truthy float :=
  fun x => negb (PrimFloat.eqb x 0%float || PrimFloat.is_nan x).

(** Arrays are objects, and objects are always truthy (also when empty). *)
#[global] Instance truthy_array {A} : Truthy (list A) := fun _ => true.

(** [undefined] and [null] ([None]) are falsy. *)
#[global] Instance truthy_option {A} `{Truthy A} : Truthy (option A) :=
  fun x => match x with Some v => truthy v | None => false end.

(** [x || d] where [x] may be [undefined] or [null] ([None]). *)
Definition or {A} `{Truthy A} (x : option A) (d : A) : A :=
  match x with
  | Some v => if truthy v then v else d
  | None => d
  end.

(** [x ?? d]: only [undefined] and [null] fall through to [d]. *)
Definition nullish {A} (x : option A) (d : A) : A :=
  match x with Some v => v | None => d end.

(** [`${x}`] for a string that may be [undefined]. *)
Definition interpolate (x : option string) : string :=
  match x with Some s => s | None => "undefined" end.

(** Decimal digits of a natural number, ["0"] for zero. *)
Definition digits (n : Z) : string := NilZero.string_of_uint (N.to_uint (Z.to_N n)).

(** *** [Number.prototype.toFixed] *)

(** Sign and magnitude [m * 2^e] of a finite double. *)
Definition magnitude (x : float) : option (bool * Z * Z) :=
  match Prim2SF x with
  | S754_zero s => Some (false, 0, 0)%Z
  | S754_finite s m e => Some (s, Z.pos m, e)
  | S754_infinity _ | S754_nan => None
  end.

(** The integer [n] for which [n / 10^f - m * 2^e] is closest to zero, the
    larger one of two. *)
Definition scaled (m e : Z) (f : nat) : Z :=
  let num := (m * 10 ^ Z.of_nat f)%Z in
  if (0 <=? e)%Z then (num * 2 ^ e)%Z
  else let den := (2 ^ (- e))%Z in ((2 * num + den) / (2 * den))%Z.

(** Whether [m * 2^e >= 10^21]. *)
Definition huge (m e : Z) : bool :=
  if (0 <=? e)%Z then (10 ^ 21 <=? m * 2 ^ e)%Z else (10 ^ 21 * 2 ^ (- e) <=? m)%Z.

Fixpoint zeros (n : nat) : string :=
  match n with O => "" | S n => String "0" (zeros n) end.

(** The double nearest to an integer (round to nearest, ties to even). *)
Definition ofZ (y : Z) : float := SF2Prim (binary_normalize 53 1024 y 0 false).

(** [Number::toString] on a finite double [x = v >= 10^21] (an integer):
    the shortest digit string [s] with [k] digits and the exponent [n] such
    that [s * 10^(n-k)] reads back as [x]; of several [s] the closest to [v],
    of two equally close the even one. *)
Definition candidates (x : float) (v : Z) (d k : Z) : list (Z * Z) :=
  let p := (10 ^ (d - k))%Z in
  let lo := (v / p)%Z in
  let hi := (if (v mod p =? 0)%Z then lo else lo + 1)%Z in
  let up := if (hi <? 10 ^ k)%Z then [(hi, d)]
            else if (k =? 1)%Z then [(1, d + 1)%Z] else [] in
  List.filter (fun '(s, n) => PrimFloat.eqb (ofZ (s * 10 ^ (n - k))) x)
              (if (lo =? hi)%Z then [(lo, d)] else (lo, d) :: up).

Definition closest (v k : Z) (c : list (Z * Z)) : option (Z * Z) :=
  let dist '(s, n) := Z.abs (s * 10 ^ (n - k) - v) in
  match c with
  | [] => None
  | [a] => Some a
  | a :: b :: _ =>
      if (dist a <? dist b)%Z then Some a
      else if (dist b <? dist a)%Z then Some b
      else if Z.even (fst a) then Some a else Some b
  end.

Fixpoint shortest (fuel : nat) (x : float) (v d k : Z) : option (Z * Z * Z) :=
  match fuel with
  | O => None
  | S fuel =>
      match closest v k (candidates x v d k) with
      | Some (s, n) => Some (s, n, k)
      | None => shortest fuel x v d (k + 1)
      end
  end.

Definition exponential (s n k : Z) : string :=
  let ds := digits s in
  let e := "e+" ++ digits (n - 1) in
  match ds with
  | String c EmptyString => String c e
  | String c rest => String c ("." ++ rest ++ e)
  | EmptyString => e
  end.

Definition toStringHuge (x : float) (v : Z) : string :=
  let d := Z.of_nat (String.length (digits v)) in
  match shortest 17 x v d 1 with
  | Some (s, n, k) => exponential s n k
  | None => digits v
  end.

(** [x.toFixed(f)] for [0 <= f <= 100] (the page calls it with [2]). *)
Definition toFixed (x : float) (f : nat) : string :=
  match magnitude x with
  | None =>
      if PrimFloat.is_nan x then "NaN"
      else if PrimFloat.ltb x 0%float then "-Infinity" else "Infinity"
  | Some (neg, m, e) =>
      let s := if neg then "-" else "" in
      if huge m e then s ++ toStringHuge (PrimFloat.abs x) (m * 2 ^ e)
      else
        let ds := digits (scaled m e f) in
        let k := String.length ds in
        let ds := if (k <=? f)%nat then zeros (f + 1 - k) ++ ds else ds in
        let k := String.length ds in
        match f with
        | O => s ++ ds
        | _ => s ++ substring 0 (k - f) ds ++ "." ++ substring (k - f) f ds
        end
  end.

(** *** [String.prototype.toUpperCase]

    The ticker box holds exchange symbols; the mapping is the one of the
    ASCII repertoire: [a]..[z] go to [A]..[Z], every other character is kept. *)
Definition isLower (c : ascii) : bool :=
  let n := nat_of_ascii c in (97 <=? n)%nat && (n <=? 122)%nat.

Definition upperChar (c : ascii) : ascii :=
  if isLower c then ascii_of_nat (nat_of_ascii c - 32) else c.

Fixpoint toUpperCase (s : string) : string :=
  match s with
  | EmptyString => EmptyString
  | String c s => String (upperChar c) (toUpperCase s)
  end.


Definition isDigit (c : ascii) : bool :=
  let n := nat_of_ascii c in (48 <=? n)%nat && (n <=? 57)%nat.

Fixpoint allDigits (s : string) : bool :=
  match s with
  | EmptyString => true
  | String c s => isDigit c && allDigits s
  end.

End JS.

(** ** [frontend/components/Chart.tsx] *)

Module Chart.

Record Candle := {
  time : string;
  open : float;
  high : float;
  low : float;
  close : float;
  volume : option float;
}.

(** [LineData] and [BarData] of the charting library, as the chart uses them. *)
Record LineData := { line_time : string; line_value : float }.
Record BarData := { hist_time : string; hist_value : float }.

Record IndicatorSeries := {
  sma50 : option (list LineData);
  sma200 : option (list LineData);
  ema20 : option (list LineData);
}.

Record MacdSeries := {
  macd : list LineData;
  signal : list LineData;
  histogram : list BarData;
}.

#[global] Instance truthy_indicators : JS.Truthy IndicatorSeries := fun _ => true.
#[global] Instance truthy_macd : JS.Truthy MacdSeries := fun _ => true.

Record Props := {
  candles : list Candle;
  indicators : option IndicatorSeries;
  rsi : option (list LineData);
  macdProp : option MacdSeries;
}.

(** The component's [showSMA] state. *)
Record ShowSMA := { show_sma50 : bool; show_sma200 : bool; show_ema20 : bool }.

Definition initialShowSMA : ShowSMA :=
  {| show_sma50 := true; show_sma200 := true; show_ema20 := false |}.

(** One point of the volume histogram. *)
Record VolumeBar := { bar_time : string; bar_value : float; bar_color : string }.

Definition upColor : string := "rgba(110, 231, 183, 0.5)".
Definition downColor : string := "rgba(252, 165, 165, 0.5)".

(** [c.close >= c.open] on doubles. *)
Definition geq (x y : float) : bool := PrimFloat.leb y x.

(** The callback of [candles.map] in the volume series. *)
Definition volumeBar (c : Candle) : VolumeBar :=
  {| bar_time := time c;
     bar_value := JS.nullish (volume c) 0%float;
     bar_color := if geq (close c) (open c) then upColor else downColor |}.

(** A series added to the chart, with the data passed to [setData]. *)
Inductive Series :=
| Candlestick (data : list Candle)
| VolumeHistogram (priceScaleId color : string) (data : list VolumeBar)
| Line (color : string) (priceScaleId : option string) (data : list LineData)
| Histogram (color priceScaleId : string) (data : list BarData).

Definition overlayLines : list (string * string) :=
  [("sma50", "#60a5fa"); ("sma200", "#c084fc"); ("ema20", "#facc15")].

Definition shown (s : ShowSMA) (key : string) : bool :=
  if String.eqb key "sma50" then show_sma50 s
  else if String.eqb key "sma200" then show_sma200 s
  else if String.eqb key "ema20" then show_ema20 s
  else false.

Definition indicator (i : option IndicatorSeries) (key : string) : option (list LineData) :=
  match i with
  | None => None
  | Some i =>
      if String.eqb key "sma50" then sma50 i
      else if String.eqb key "sma200" then sma200 i
      else if String.eqb key "ema20" then ema20 i
      else None
  end.

(** The body of [Object.entries(overlayLines).forEach]. *)
Definition overlay (s : ShowSMA) (i : option IndicatorSeries) (entry : string * string) : list Series :=
  let '(key, lineColor) := entry in
  match indicator i key with
  | Some data => if shown s key then [Line lineColor None data] else []
  | None => []
  end.

Record ChartInstance := { width : nat; height : nat; series : list Series }.

(** The effect of [Chart]: nothing is drawn while the container is not
    mounted ([container = None]); otherwise the chart gets the candlestick
    series, the volume histogram, the enabled overlays and the RSI and MACD
    lines, in this order. [container] is the container's [clientWidth]. *)
Definition chartEffect (container : option nat) (p : Props) (s : ShowSMA) : option ChartInstance :=
  match container with
  | None => None
  | Some clientWidth =>
      Some {| width := clientWidth;
              height := 480;
              series :=
                [Candlestick (candles p);
                 VolumeHistogram "" "#4b5563" (List.map volumeBar (candles p))]
                ++ List.flat_map (overlay s (indicators p)) overlayLines
                ++ match rsi p with
                   | Some r => [Line "#f472b6" (Some "rsi") r]
                   | None => []
                   end
                ++ match macdProp p with
                   | Some m => [Line "#22d3ee" (Some "macd") (macd m);
                                Line "#f97316" (Some "macd") (signal m);
                                Histogram "#a78bfa" "macd" (histogram m)]
                   | None => []
                   end |}
  end.

(** The data of the volume sub-panel: the histogram series on the overlay
    price scale. *)
Definition volumePanel (c : ChartInstance) : list (list VolumeBar) :=
  List.flat_map (fun s => match s with VolumeHistogram _ _ d => [d] | _ => [] end) (series c).

(** The [onChange] handlers of the three check boxes:
    [setShowSMA((s) => ({ ...s, key: !s.key }))]. *)
Definition toggleSma50 (s : ShowSMA) : ShowSMA :=
  {| show_sma50 := negb (show_sma50 s); show_sma200 := show_sma200 s;
     show_ema20 := show_ema20 s |}.

Definition toggleSma200 (s : ShowSMA) : ShowSMA :=
  {| show_sma50 := show_sma50 s; show_sma200 := negb (show_sma200 s);
     show_ema20 := show_ema20 s |}.

Definition toggleEma20 (s : ShowSMA) : ShowSMA :=
  {| show_sma50 := show_sma50 s; show_sma200 := show_sma200 s;
     show_ema20 := negb (show_ema20 s) |}.

(** [handleResize]: the chart takes the width of its container, if there is
    one. *)
Definition handleResize (container : option nat) (c : ChartInstance) : ChartInstance :=
  match container with
  | Some clientWidth =>
      {| width := clientWidth; height := height c; series := series c |}
  | None => c
  end.

(** A line on the main price scale with the given colour: an overlay. *)
Definition overlayOf (color : string) (x : Series) : bool :=
  match x with
  | Line c None _ => String.eqb c color
  | _ => false
  end.

(** A line or a histogram on the named price scale. *)
Definition onScale (scale : string) (x : Series) : bool :=
  match x with
  | Line _ (Some sc) _ => String.eqb sc scale
  | Histogram _ sc _ => String.eqb sc scale
  | _ => false
  end.

End Chart.

(** ** [frontend/app/page.tsx] *)

Module Page.

(** The page comes in two revisions: the first talks to a fixed backend
    address and keeps no error message; the second reads the address from the
    environment, stores the indicator series, and shows an error message.
    The handlers below follow the second and mark what the first leaves out. *)
Inductive Revision := Rev1 | Rev2.

Definition second (rev : Revision) : bool :=
  match rev with Rev1 => false | Rev2 => true end.

(** *** Types of the page *)

Record Report := {
  executive_summary : option string;
  technical_outlook : option string;
  risks : option string;
  strategy : option string;
  technical_indicators : option string;
  confidence : option string;
}.

(** The object literal [{}]. *)
Definition emptyReport : Report :=
  {| executive_summary := None; technical_outlook := None; risks := None;
     strategy := None; technical_indicators := None; confidence := None |}.

Definition emptyIndicators : Chart.IndicatorSeries :=
  {| Chart.sma50 := None; Chart.sma200 := None; Chart.ema20 := None |}.

#[global] Instance truthy_report : JS.Truthy Report := fun _ => true.

(** The fields of a news item the page reads. *)
Record NewsItem := {
  title : string;
  url : string;
  excerpt : string;
  score : option float;
}.

Record Frame := { label : string; period : string; interval : string }.

#[global] Instance frame_eq_dec : EqDecision Frame.
Proof. solve_decision. Defined.

Definition TIMEFRAMES : list Frame :=
  [ {| label := "1D"; period := "5d"; interval := "30m" |};
    {| label := "1W"; period := "1mo"; interval := "1h" |};
    {| label := "1M"; period := "6mo"; interval := "1d" |};
    {| label := "1Y"; period := "1y"; interval := "1d" |} ].

Inductive Status := idle | loading | analyzing.

#[global] Instance status_eq_dec : EqDecision Status.
Proof. solve_decision. Defined.

(** The [useState] cells of [Dashboard]. [candles] holds whatever the history
    response carried, [None] when it carried none. *)
Record State := {
  ticker : string;
  selectedFrame : Frame;
  candles : option (list Chart.Candle);
  indicators : Chart.IndicatorSeries;
  rsiSeries : list Chart.LineData;
  macdSeries : option Chart.MacdSeries;
  news : list NewsItem;
  report : Report;
  status : Status;
  errorMsg : string;
}.

Definition initialState : State :=
  {| ticker := "AAPL";
     selectedFrame := {| label := "1Y"; period := "1y"; interval := "1d" |};
     candles := Some [];
     indicators := emptyIndicators;
     rsiSeries := [];
     macdSeries := None;
     news := [];
     report := emptyReport;
     status := idle;
     errorMsg := "" |}.

Definition setTicker (v : string) (s : State) : State :=
  {| ticker := v; selectedFrame := selectedFrame s; candles := candles s;
     indicators := indicators s; rsiSeries := rsiSeries s; macdSeries := macdSeries s;
     news := news s; report := report s; status := status s; errorMsg := errorMsg s |}.

Definition setSelectedFrame (v : Frame) (s : State) : State :=
  {| ticker := ticker s; selectedFrame := v; candles := candles s;
     indicators := indicators s; rsiSeries := rsiSeries s; macdSeries := macdSeries s;
     news := news s; report := report s; status := status s; errorMsg := errorMsg s |}.

Definition setCandles (v : option (list Chart.Candle)) (s : State) : State :=
  {| ticker := ticker s; selectedFrame := selectedFrame s; candles := v;
     indicators := indicators s; rsiSeries := rsiSeries s; macdSeries := macdSeries s;
     news := news s; report := report s; status := status s; errorMsg := errorMsg s |}.

Definition setIndicators (v : Chart.IndicatorSeries) (s : State) : State :=
  {| ticker := ticker s; selectedFrame := selectedFrame s; candles := candles s;
     indicators := v; rsiSeries := rsiSeries s; macdSeries := macdSeries s;
     news := news s; report := report s; status := status s; errorMsg := errorMsg s |}.

Definition setRsiSeries (v : list Chart.LineData) (s : State) : State :=
  {| ticker := ticker s; selectedFrame := selectedFrame s; candles := candles s;
     indicators := indicators s; rsiSeries := v; macdSeries := macdSeries s;
     news := news s; report := report s; status := status s; errorMsg := errorMsg s |}.

Definition setMacdSeries (v : option Chart.MacdSeries) (s : State) : State :=
  {| ticker := ticker s; selectedFrame := selectedFrame s; candles := candles s;
     indicators := indicators s; rsiSeries := rsiSeries s; macdSeries := v;
     news := news s; report := report s; status := status s; errorMsg := errorMsg s |}.

Definition setNews (v : list NewsItem) (s : State) : State :=
  {| ticker := ticker s; selectedFrame := selectedFrame s; candles := candles s;
     indicators := indicators s; rsiSeries := rsiSeries s; macdSeries := macdSeries s;
     news := v; report := report s; status := status s; errorMsg := errorMsg s |}.

Definition setReport (v : Report) (s : State) : State :=
  {| ticker := ticker s; selectedFrame := selectedFrame s; candles := candles s;
     indicators := indicators s; rsiSeries := rsiSeries s; macdSeries := macdSeries s;
     news := news s; report := v; status := status s; errorMsg := errorMsg s |}.

Definition setStatus (v : Status) (s : State) : State :=
  {| ticker := ticker s; selectedFrame := selectedFrame s; candles := candles s;
     indicators := indicators s; rsiSeries := rsiSeries s; macdSeries := macdSeries s;
     news := news s; report := report s; status := v; errorMsg := errorMsg s |}.

Definition setErrorMsg (v : string) (s : State) : State :=
  {| ticker := ticker s; selectedFrame := selectedFrame s; candles := candles s;
     indicators := indicators s; rsiSeries := rsiSeries s; macdSeries := macdSeries s;
     news := news s; report := report s; status := status s; errorMsg := v |}.

(** *** What the backend answers *)

Record HistoryJson := {
  h_candles : option (list Chart.Candle);
  h_indicators : option Chart.IndicatorSeries;
  h_rsi : option (list Chart.LineData);
  h_macd : option Chart.MacdSeries;
}.

Record NewsJson := { n_news : option (list NewsItem) }.

Record AnalyzeJson := { task_id : option string }.

Record ResultJson := { draft_report : option Report }.

Record TaskJson := {
  t_status : option string;
  t_result : option ResultJson;
  t_error : option string;
}.

(** What [await res.json()] yields: a rejection, the value [null], or an
    object with the fields above. *)
Inductive Body (A : Type) :=
| NotJson (e : string)
| JsonNull
| Json (a : A).
Arguments NotJson {A} e.
Arguments JsonNull {A}.
Arguments Json {A} a.

(** What [await fetch(...)] yields: a rejection (network failure) or a
    response with its [ok] flag, its status code and its body. *)
Inductive Fetched (A : Type) :=
| Rejected (e : string)
| Response (ok : bool) (code : nat) (body : Body A).
Arguments Rejected {A} e.
Arguments Response {A} ok code body.

(** *** The browser around the component

    The page runs on the event loop of the browser: a handler runs to its
    first [await], where the rest of it is parked until the promise settles.
    Awaits that follow each other with nothing in between (the response and
    then its body) are one suspension. The clock counts milliseconds; an
    interval timer fires when it is due and is then due one delay later. *)

Record Request := { method : string; target : string }.

(** A timer made by [setInterval(callback, delay)]; the callback of
    [pollTask] closes over [taskId]. *)
Record Interval := { iv_task : option string; iv_delay : N; iv_due : N }.

(** An [async] function suspended at an [await]. *)
Inductive Pending :=
| PLoad
| PAnalyze
| PPoll (timer : nat) (taskId : option string).

Record World := {
  ui : State;
  now : N;
  timers : gmap nat Interval;
  nextTimer : nat;
  awaiting : gmap nat Pending;
  nextPromise : nat;
  sent : list (N * Request);
  console : list (option string);
}.

Definition onUi (f : State -> State) (w : World) : World :=
  {| ui := f (ui w); now := now w; timers := timers w; nextTimer := nextTimer w;
     awaiting := awaiting w; nextPromise := nextPromise w; sent := sent w;
     console := console w |}.

(** [fetch(url, {method})]: the request leaves at the current time. *)
Definition fetch (m url : string) (w : World) : World :=
  {| ui := ui w; now := now w; timers := timers w; nextTimer := nextTimer w;
     awaiting := awaiting w; nextPromise := nextPromise w;
     sent := sent w ++ [(now w, {| method := m; target := url |})];
     console := console w |}.

(** [await]: the rest of the function is parked until the promise settles. *)
Definition await (k : Pending) (w : World) : World :=
  {| ui := ui w; now := now w; timers := timers w; nextTimer := nextTimer w;
     awaiting := <[nextPromise w := k]> (awaiting w);
     nextPromise := S (nextPromise w); sent := sent w; console := console w |}.

Definition settle (p : nat) (w : World) : World :=
  {| ui := ui w; now := now w; timers := timers w; nextTimer := nextTimer w;
     awaiting := delete p (awaiting w); nextPromise := nextPromise w;
     sent := sent w; console := console w |}.

Definition consoleError (e : option string) (w : World) : World :=
  {| ui := ui w; now := now w; timers := timers w; nextTimer := nextTimer w;
     awaiting := awaiting w; nextPromise := nextPromise w; sent := sent w;
     console := console w ++ [e] |}.

(** [setInterval(callback, delay)] with the callback of [pollTask]. *)
Definition setInterval (taskId : option string) (delay : N) (w : World) : World :=
  {| ui := ui w; now := now w;
     timers := <[nextTimer w := {| iv_task := taskId; iv_delay := delay;
                                   iv_due := (now w + delay)%N |}]> (timers w);
     nextTimer := S (nextTimer w);
     awaiting := awaiting w; nextPromise := nextPromise w; sent := sent w;
     console := console w |}.

Definition clearInterval (id : nat) (w : World) : World :=
  {| ui := ui w; now := now w; timers := delete id (timers w);
     nextTimer := nextTimer w; awaiting := awaiting w;
     nextPromise := nextPromise w; sent := sent w; console := console w |}.

Definition reschedule (id : nat) (iv : Interval) (w : World) : World :=
  {| ui := ui w; now := now w;
     timers := <[id := {| iv_task := iv_task iv; iv_delay := iv_delay iv;
                          iv_due := (iv_due iv + iv_delay iv)%N |}]> (timers w);
     nextTimer := nextTimer w; awaiting := awaiting w;
     nextPromise := nextPromise w; sent := sent w; console := console w |}.

Definition advance (dt : N) (w : World) : World :=
  {| ui := ui w; now := (now w + dt)%N; timers := timers w;
     nextTimer := nextTimer w; awaiting := awaiting w;
     nextPromise := nextPromise w; sent := sent w; console := console w |}.

(** *** The handlers of [Dashboard] *)

Section Handlers.

(** The revision of the page and the value of [NEXT_PUBLIC_API_BASE]. *)
Variable rev : Revision.
Variable NEXT_PUBLIC_API_BASE : option string.

Definition API_BASE : string :=
  if second rev then JS.or NEXT_PUBLIC_API_BASE "http://localhost:8000"
  else "http://localhost:8000".

Definition historyUrl (t : string) (f : Frame) : string :=
  API_BASE ++ "/api/market/history?ticker=" ++ t ++ "&period=" ++ period f
           ++ "&interval=" ++ interval f.

Definition newsUrl (t : string) : string :=
  API_BASE ++ "/api/market/news?ticker=" ++ t.

Definition analyzeUrl (t : string) : string :=
  API_BASE ++ "/api/analyze?ticker=" ++ t.

Definition pollUrl (taskId : option string) : string :=
  API_BASE ++ "/api/analyze/" ++ JS.interpolate taskId.

(** A setter that only the second revision calls. *)
Definition inSecond (f : World -> World) (w : World) : World :=
  if second rev then f w else w.

(** [loadMarketData] up to its first [await]. *)
Definition loadMarketData (w : World) : World :=
  let t := ticker (ui w) in
  let f := selectedFrame (ui w) in
  let w := onUi (setStatus loading) w in
  let w := inSecond (onUi (setErrorMsg "")) w in
  let w := fetch "GET" (historyUrl t f) w in
  let w := fetch "GET" (newsUrl t) w in
  await PLoad w.

(** The [catch] and [finally] blocks of [loadMarketData]. *)
Definition loadFailed (e : string) (w : World) : World :=
  onUi (setStatus idle) (consoleError (Some e) w).

(** The rest of [loadMarketData], once both fetches have settled. Nothing is
    stored unless both responses arrive and both bodies parse; reading a field
    of a [null] body throws, after the setters before it have run. *)
Definition loadSettled (prices : Fetched HistoryJson) (newsRes : Fetched NewsJson)
    (w : World) : World :=
  match prices, newsRes with
  | Rejected e, _ => loadFailed e w
  | _, Rejected e => loadFailed e w
  | Response _ _ (NotJson e), _ => loadFailed e w
  | Response _ _ _, Response _ _ (NotJson e) => loadFailed e w
  | Response _ _ JsonNull, Response _ _ _ =>
      loadFailed "TypeError: Cannot read properties of null (reading 'candles')" w
  | Response _ _ (Json pricesJson), Response _ _ newsBody =>
      let w := onUi (setCandles (h_candles pricesJson)) w in
      let w := inSecond (onUi (setIndicators (JS.or (h_indicators pricesJson) emptyIndicators))) w in
      let w := inSecond (onUi (setRsiSeries (JS.or (h_rsi pricesJson) []))) w in
      let w := inSecond (onUi (setMacdSeries (h_macd pricesJson))) w in
      match newsBody with
      | Json newsJson =>
          let w := onUi (setNews (JS.or (n_news newsJson) [])) w in
          onUi (setStatus idle) w
      | _ => loadFailed "TypeError: Cannot read properties of null (reading 'news')" w
      end
  end.

(** [pollTask]: arm the polling timer. *)
Definition pollTask (taskId : option string) (w : World) : World :=
  setInterval taskId 1500 w.

(** [handleAnalyze] up to its first [await]. *)
Definition handleAnalyze (w : World) : World :=
  let t := ticker (ui w) in
  let w := onUi (setStatus analyzing) w in
  let w := onUi (setReport emptyReport) w in
  let w := inSecond (onUi (setErrorMsg "")) w in
  let w := fetch "POST" (analyzeUrl t) w in
  await PAnalyze w.

(** The [catch] block of [handleAnalyze]. *)
Definition analyzeFailed (e : string) (w : World) : World :=
  let w := consoleError (Some e) w in
  let w := inSecond (onUi (setErrorMsg "Analyze request failed. Check API key / backend logs.")) w in
  onUi (setStatus idle) w.

(** The rest of [handleAnalyze], once the POST has settled. Only the second
    revision looks at [res.ok]. *)
Definition analyzeSettled (res : Fetched AnalyzeJson) (w : World) : World :=
  match res with
  | Rejected e => analyzeFailed e w
  | Response ok code body =>
      if second rev && negb ok
      then analyzeFailed ("Analyze failed: " ++ JS.digits (Z.of_nat code)) w
      else match body with
           | NotJson e => analyzeFailed e w
           | JsonNull =>
               analyzeFailed "TypeError: Cannot destructure property 'task_id' of null" w
           | Json j => pollTask (task_id j) w
           end
  end.

(** The callback of the polling timer up to its first [await]. *)
Definition pollTick (id : nat) (iv : Interval) (w : World) : World :=
  let w := fetch "GET" (pollUrl (iv_task iv)) w in
  await (PPoll id (iv_task iv)) w.

Definition isStatus (task : TaskJson) (s : string) : bool :=
  bool_decide (t_status task = Some s).

(** A task body is terminal when its status is "complete" or "error". *)
Definition terminalTask (task : TaskJson) : bool :=
  isStatus task "complete" || isStatus task "error".

(** [task.result?.draft_report] *)
Definition draftOf (task : TaskJson) : option Report :=
  match t_result task with
  | Some r => draft_report r
  | None => None
  end.

Definition genericFailure : string :=
  "Agent run failed. Check backend logs or API keys.".

(** The two [if] statements of the callback. *)
Definition onTask (id : nat) (task : TaskJson) (w : World) : World :=
  let w :=
    if isStatus task "complete" then
      let w := clearInterval id w in
      let w := onUi (setReport (JS.or (draftOf task) emptyReport)) w in
      onUi (setStatus idle) w
    else w in
  if isStatus task "error" then
    let w := clearInterval id w in
    let w := consoleError (t_error task) w in
    let w := inSecond (onUi (setErrorMsg (JS.or (t_error task) genericFailure))) w in
    onUi (setStatus idle) w
  else w.

(** The rest of the callback, once its GET has settled. A rejection, a body
    that does not parse and a [null] body end the callback with an exception
    nobody catches: the timer stays armed. *)
Definition pollSettled (id : nat) (res : Fetched TaskJson) (w : World) : World :=
  match res with
  | Response _ _ (Json task) => onTask id task w
  | _ => w
  end.

(** *** Render *)

Inductive Node :=
| Paragraph (text : string)
| NewsCard (href heading badge body : string).

(** The sentiment badge of a news card. *)
Definition badge (item : NewsItem) : string :=
  match score item with
  | Some s => if JS.truthy s then JS.toFixed s 2 else "Neutral"
  | None => "Neutral"
  end.

Definition noNews : string := "No news fetched (soft fail safe).".

Definition newsPanel (s : State) : list Node :=
  (if (List.length (news s) =? 0)%nat then [Paragraph noNews] else [])
  ++ List.map (fun item => NewsCard (url item) (title item) (badge item) (excerpt item))
              (news s).

Definition analyzeDisabled (s : State) : bool := negb (bool_decide (status s = idle)).
Definition refreshDisabled (s : State) : bool := bool_decide (status s = loading).

Definition analyzeLabel (s : State) : string :=
  if bool_decide (status s = analyzing) then "Analyzing..." else "Analyze".

Definition field (x : option string) : string := JS.nullish x "".

(** The AI insight panel. *)
Definition insightPanel (s : State) : list Node :=
  if JS.truthy (executive_summary (report s)) then
    [Paragraph ("Executive Summary: " ++ field (executive_summary (report s)));
     Paragraph ("Technical Outlook: " ++ field (technical_outlook (report s)));
     Paragraph ("Risks: " ++ field (risks (report s)));
     Paragraph ("Strategy: " ++ field (strategy (report s)));
     Paragraph ("Confidence: " ++ field (confidence (report s)));
     Paragraph (field (technical_indicators (report s)))]
  else
    [Paragraph "Trigger analysis to see the autonomous report."]
    ++ (if second rev && bool_decide (status s = analyzing)
        then [Paragraph "Analyzing…"] else [])
    ++ (if second rev && JS.truthy (errorMsg s)
        then [Paragraph ("Error: " ++ errorMsg s)] else []).

(** *** The event loop *)

Inductive Event :=
| TypeTicker (value : string)
| SelectFrame (i : nat)
| ClickRefresh
| ClickAnalyze
| LoadSettled (p : nat) (prices : Fetched HistoryJson) (newsRes : Fetched NewsJson)
| AnalyzeSettled (p : nat) (res : Fetched AnalyzeJson)
| TimerFires (id : nat)
| PollSettled (p : nat) (res : Fetched TaskJson)
| TimePasses (dt : N).

(** No armed timer comes due before [t]. *)
Definition noneDueBefore (t : N) (w : World) : Prop :=
  map_Forall (fun _ iv => (t <= iv_due iv)%N) (timers w).

(** One turn of the event loop; [None] when the event cannot happen in [w]:
    a click on a disabled button, a promise that is not pending, a timer that
    is not armed or not due, time running past a due timer. *)
Definition step (w : World) (e : Event) : option World :=
  match e with
  | TypeTicker value => Some (onUi (setTicker (JS.toUpperCase value)) w)
  | SelectFrame i =>
      match TIMEFRAMES !! i with
      | Some f =>
          if decide (f = selectedFrame (ui w)) then Some w
          else Some (loadMarketData (onUi (setSelectedFrame f) w))
      | None => None
      end
  | ClickRefresh =>
      if refreshDisabled (ui w) then None else Some (loadMarketData w)
  | ClickAnalyze =>
      if analyzeDisabled (ui w) then None else Some (handleAnalyze w)
  | LoadSettled p prices newsRes =>
      match awaiting w !! p with
      | Some PLoad => Some (loadSettled prices newsRes (settle p w))
      | _ => None
      end
  | AnalyzeSettled p res =>
      match awaiting w !! p with
      | Some PAnalyze => Some (analyzeSettled res (settle p w))
      | _ => None
      end
  | TimerFires id =>
      match timers w !! id with
      | Some iv =>
          if decide (iv_due iv = now w)
          then Some (pollTick id iv (reschedule id iv w))
          else None
      | None => None
      end
  | PollSettled p res =>
      match awaiting w !! p with
      | Some (PPoll id _) => Some (pollSettled id res (settle p w))
      | _ => None
      end
  | TimePasses dt =>
      if decide (noneDueBefore (now w + dt) w) then Some (advance dt w) else None
  end.

Fixpoint run (w : World) (es : list Event) : option World :=
  match es with
  | [] => Some w
  | e :: es => match step w e with Some w' => run w' es | None => None end
  end.

(** The page after its first render: the effect on [selectedFrame] has
    started the first load. *)
Definition mounted : World :=
  loadMarketData
    {| ui := initialState; now := 0; timers := ∅; nextTimer := 0;
       awaiting := ∅; nextPromise := 0; sent := []; console := [] |}.

(** *** Vocabulary of the properties *)


Definition get (url : string) : Request := {| method := "GET"; target := url |}.
Definition post (url : string) : Request := {| method := "POST"; target := url |}.

(** The requests that leave the browser during one turn of the event loop. *)
Definition emitted (w : World) (e : Event) : list (N * Request) :=
  let t := ticker (ui w) in
  match e with
  | SelectFrame i =>
      match TIMEFRAMES !! i with
      | Some f =>
          if decide (f = selectedFrame (ui w)) then []
          else [(now w, get (historyUrl t f)); (now w, get (newsUrl t))]
      | None => []
      end
  | ClickRefresh =>
      [(now w, get (historyUrl t (selectedFrame (ui w)))); (now w, get (newsUrl t))]
  | ClickAnalyze => [(now w, post (analyzeUrl t))]
  | TimerFires id =>
      match timers w !! id with
      | Some iv => [(now w, get (pollUrl (iv_task iv)))]
      | None => []
      end
  | _ => []
  end.


(** Whether the POST of [handleAnalyze] ends in its [catch] block. *)
Definition analyzeFails (res : Fetched AnalyzeJson) : bool :=
  match res with
  | Rejected _ => true
  | Response ok _ body =>
      (second rev && negb ok)
      || match body with Json _ => false | _ => true end
  end.

(** Whether a settled poll carries a terminal task body. *)
Definition terminalResponse (res : Fetched TaskJson) : bool :=
  match res with
  | Response _ _ (Json task) => terminalTask task
  | _ => false
  end.


(** How one turn of the event loop changes the timer table: not at all, or
    [pollTask] arms a fresh timer, or a due timer fires and is re-armed one
    delay later, or a terminal poll response clears the timer that asked. *)
Inductive TimerChange (w : World) (e : Event) (w' : World) : Prop :=
| timers_kept :
    timers w' = timers w -> nextTimer w' = nextTimer w ->
    (forall id, e <> TimerFires id) ->
    (forall p res, e = PollSettled p res -> terminalResponse res = false) ->
    TimerChange w e w'
| timer_armed (p : nat) (ok : bool) (code : nat) (j : AnalyzeJson) :
    e = AnalyzeSettled p (Response ok code (Json j)) ->
    analyzeFails (Response ok code (Json j)) = false ->
    timers w' = <[nextTimer w := {| iv_task := task_id j; iv_delay := 1500;
                                    iv_due := (now w + 1500)%N |}]> (timers w) ->
    nextTimer w' = S (nextTimer w) ->
    TimerChange w e w'
| timer_fired (id : nat) (iv : Interval) :
    e = TimerFires id ->
    timers w !! id = Some iv ->
    iv_due iv = now w ->
    timers w' = <[id := {| iv_task := iv_task iv; iv_delay := iv_delay iv;
                           iv_due := (iv_due iv + iv_delay iv)%N |}]> (timers w) ->
    nextTimer w' = nextTimer w ->
    awaiting w' = <[nextPromise w := PPoll id (iv_task iv)]> (awaiting w) ->
    TimerChange w e w'
| timer_cleared (p id : nat) (taskId : option string) (res : Fetched TaskJson) :
    e = PollSettled p res ->
    awaiting w !! p = Some (PPoll id taskId) ->
    terminalResponse res = true ->
    timers w' = delete id (timers w) ->
    nextTimer w' = nextTimer w ->
    TimerChange w e w'.


(** An analysis is in flight from the click on Analyze until its polling
    timer is cleared (or its POST fails). *)
Definition isAnalyze (k : Pending) : bool :=
  match k with PAnalyze => true | _ => false end.

Definition analysesInFlight (w : World) : nat :=
  List.length (List.filter (fun kv => isAnalyze (snd kv)) (map_to_list (awaiting w)))
  + size (timers w).

(** *** The chart of the dashboard *)

(** What the effect of [Chart] does with the props of the dashboard: it
    returns at once while the container is not mounted, it throws when
    [candles] is [undefined] (at [candles.map] at the latest), and otherwise
    it draws. *)
Inductive Drawing :=
| NotMounted
| Threw
| Drew (c : Chart.ChartInstance).

(** [<Chart candles={candles} indicators={indicators} rsi={rsiSeries}
    macd={macdSeries || undefined} />]; the first revision passes the
    candles only. *)
Definition chartProps (cs : list Chart.Candle) (s : State) : Chart.Props :=
  {| Chart.candles := cs;
     Chart.indicators := if second rev then Some (indicators s) else None;
     Chart.rsi := if second rev then Some (rsiSeries s) else None;
     Chart.macdProp := if second rev then macdSeries s else None |}.

Definition renderChart (container : option nat) (show : Chart.ShowSMA) (s : State) : Drawing :=
  match container, candles s with
  | None, _ => NotMounted
  | Some _, None => Threw
  | Some _, Some cs =>
      match Chart.chartEffect container (chartProps cs s) show with
      | Some c => Drew c
      | None => NotMounted
      end
  end.

(** *** More vocabulary *)

(** Whether a settled load ends before its first setter: a fetch was
    rejected, the history body did not parse or is [null], or the news body
    did not parse. *)
Definition loadAborts (prices : Fetched HistoryJson) (newsRes : Fetched NewsJson) : bool :=
  match prices, newsRes with
  | Response _ _ (Json _), Response _ _ (Json _) => false
  | Response _ _ (Json _), Response _ _ JsonNull => false
  | _, _ => true
  end.

(** The promise an event settles. *)
Definition settles (e : Event) : option nat :=
  match e with
  | LoadSettled p _ _ | AnalyzeSettled p _ | PollSettled p _ => Some p
  | _ => None
  end.


End Handlers.

End Page.

(** ** The analysis pipeline and the task registry

    The backend ([backend/agents/graph.py], [backend/agents/tools.py],
    [backend/main.py]) is not among the sources; every definition of this
    module is modelled from the specification. *)

Module Backend.

(** Modelled from the spec: the three confidence levels of a Draft Report. *)
Inductive Confidence := High | Medium | Low.

(** Modelled from the spec: the Draft Report of the data model (the backend's
    report type is not in the sources): the four narrative keys as the
    Drafter's text supplies them, the confidence the Critic assigns, and the
    embedded copy of the numeric values. *)
Record Draft := {
  d_executive_summary : option string;
  d_technical_outlook : option string;
  d_risks : option string;
  d_strategy : option string;
  d_confidence : option Confidence;
  d_technical_indicators : option string;
}.

(** Modelled from the spec: the Critic assigns the confidence of a draft. *)
Definition withConfidence (c : Confidence) (d : Draft) : Draft :=
  {| d_executive_summary := d_executive_summary d;
     d_technical_outlook := d_technical_outlook d;
     d_risks := d_risks d;
     d_strategy := d_strategy d;
     d_confidence := Some c;
     d_technical_indicators := d_technical_indicators d |}.

(** Modelled from the spec: the states of the orchestrator's state machine;
    [Failed] carries the cause of the failure. *)
Inductive Phase :=
| Submitted | Researching | Analyzing | Drafting | Reviewing | Done
| Failed (cause : string).

(** Modelled from the spec: [Done] and [Failed] are the terminal states. *)
Definition terminal (p : Phase) : bool :=
  match p with Done | Failed _ => true | _ => false end.

(** Modelled from the spec: the cause of the fatal price failure, in the
    wording of the state machine. *)
Definition priceCause : string := "price data unavailable after retries".

(** Modelled from the spec: the cause of the fatal drafting failure, the
    unrecoverable parse failure of the Writer; the spec fixes no wording of
    it, only that it differs from the cause above. *)
Definition draftCause : string := "drafting failed: the draft is not valid structured content".

(** Modelled from the spec: the structured prompt payload the Writer hands to
    the Drafter: the indicators, the news, the feedback of the Critic on a
    revision, and whether the stricter formatting instruction is on. *)
Record Prompt (Bundle NewsItem : Type) := {
  p_indicators : option Bundle;
  p_news : list NewsItem;
  p_feedback : option string;
  p_strict : bool;
}.
Arguments p_indicators {Bundle NewsItem} _.
Arguments p_news {Bundle NewsItem} _.
Arguments p_feedback {Bundle NewsItem} _.
Arguments p_strict {Bundle NewsItem} _.

(** Modelled from the spec: the external collaborators of the pipeline, the
    capabilities it consumes: the OHLCV series and the indicator bundle with
    the Indicator Engine between them, the price source (which may answer
    differently at every attempt) and the news source, the Drafter (which may
    answer differently at every call) with the parser of its text, the
    numeric parity check of the Critic, which describes a mismatch if there
    is one, and the confidence implied by the completeness of the data. *)
Class Collaborators := {
  Series : Type;
  Bundle : Type;
  NewsItem : Type;
  indicatorEngine : Series -> Bundle;
  priceSource : string -> nat -> option Series;
  newsSource : string -> option (list NewsItem);
  drafter : nat -> Prompt Bundle NewsItem -> string;
  parseDraft : string -> option Draft;
  parity : Draft -> option Bundle -> option string;
  completeness : option Bundle -> list NewsItem -> Confidence;
}.

Section Pipeline.

Context `{Collaborators}.

(** Modelled from the spec: the Pipeline State record threaded through the
    four stages. *)
Record PipelineState := {
  ticker : string;
  ohlcv : option Series;
  indicators : option Bundle;
  news : list NewsItem;
  draft_report : option Draft;
  critic_feedback : option string;
  revision_count : nat;
}.

(** Modelled from the spec: the orchestrator's view of one task: the state of
    the machine, the pipeline state, and counters of the calls made to the
    Writer, the Drafter and the price source. *)
Record Execution := {
  phase : Phase;
  state : PipelineState;
  writerCalls : nat;
  drafterCalls : nat;
  priceAttempts : nat;
}.

(** Modelled from the spec: a task as submitted, with an empty pipeline state. *)
Definition start (t : string) : Execution :=
  {| phase := Submitted;
     state := {| ticker := t; ohlcv := None; indicators := None; news := [];
                 draft_report := None; critic_feedback := None; revision_count := 0 |};
     writerCalls := 0; drafterCalls := 0; priceAttempts := 0 |}.

(** Modelled from the spec: the price fetch of the Market Data Gateway, at
    most [budget] attempts with the same parameters; the result comes with
    the number of attempts made. *)
Fixpoint fetchPrices (t : string) (attempt budget : nat) : option Series * nat :=
  match budget with
  | O => (None, attempt)
  | S budget =>
      match priceSource t attempt with
      | Some s => (Some s, S attempt)
      | None => fetchPrices t (S attempt) budget
      end
  end.

(** Modelled from the spec: the news fetch, an empty sequence on any failure. *)
Definition fetchNews (t : string) : list NewsItem :=
  match newsSource t with Some l => l | None => [] end.

(** Modelled from the spec: the Researcher stage. *)
Definition researcher (x : Execution) : Execution :=
  let s := state x in
  let '(prices, n) := fetchPrices (ticker s) 0 3 in
  match prices with
  | None =>
      {| phase := Failed priceCause; state := s; writerCalls := writerCalls x;
         drafterCalls := drafterCalls x; priceAttempts := n |}
  | Some series =>
      {| phase := Analyzing;
         state := {| ticker := ticker s; ohlcv := Some series; indicators := indicators s;
                     news := fetchNews (ticker s); draft_report := draft_report s;
                     critic_feedback := critic_feedback s;
                     revision_count := revision_count s |};
         writerCalls := writerCalls x; drafterCalls := drafterCalls x;
         priceAttempts := n |}
  end.

(** Modelled from the spec: the Analyst stage, which cannot fail. *)
Definition analyst (x : Execution) : Execution :=
  let s := state x in
  {| phase := Drafting;
     state := {| ticker := ticker s; ohlcv := ohlcv s;
                 indicators := option_map indicatorEngine (ohlcv s);
                 news := news s; draft_report := draft_report s;
                 critic_feedback := critic_feedback s;
                 revision_count := revision_count s |};
     writerCalls := writerCalls x; drafterCalls := drafterCalls x;
     priceAttempts := priceAttempts x |}.

(** Modelled from the spec: the prompt the Writer builds from the indicators,
    the news and, on a revision, the feedback of the Critic. *)
Definition prompt (s : PipelineState) (strict : bool) : Prompt Bundle NewsItem :=
  {| p_indicators := indicators s; p_news := news s;
     p_feedback := critic_feedback s; p_strict := strict |}.

(** Modelled from the spec: the Writer produced the draft [d]; the machine
    moves to [Reviewing]. *)
Definition drafted (x : Execution) (calls : nat) (d : Draft) : Execution :=
  let s := state x in
  {| phase := Reviewing;
     state := {| ticker := ticker s; ohlcv := ohlcv s; indicators := indicators s;
                 news := news s; draft_report := Some d;
                 critic_feedback := critic_feedback s;
                 revision_count := revision_count s |};
     writerCalls := S (writerCalls x); drafterCalls := calls;
     priceAttempts := priceAttempts x |}.

(** Modelled from the spec: the Writer stage: one call of the Drafter, one
    more with the stricter formatting instruction when the text does not
    parse, and a fatal parsing error when that does not parse either. *)
Definition writer (x : Execution) : Execution :=
  let s := state x in
  let c := drafterCalls x in
  match parseDraft (drafter c (prompt s false)) with
  | Some d => drafted x (S c) d
  | None =>
      match parseDraft (drafter (S c) (prompt s true)) with
      | Some d => drafted x (S (S c)) d
      | None =>
          {| phase := Failed draftCause; state := s;
             writerCalls := S (writerCalls x); drafterCalls := S (S c);
             priceAttempts := priceAttempts x |}
      end
  end.

(** Modelled from the spec: criterion (a) of the Critic on one required key. *)
Definition missing (name : string) (v : option string) : option string :=
  match v with
  | Some (String _ _) => None
  | _ => Some ("missing or empty: " ++ name)
  end.

(** Modelled from the spec: the two criteria of the Critic, (a) the required
    keys are present and not empty, (b) the quoted numbers match the
    indicators; the result describes the first mismatch. *)
Definition review (d : Draft) (b : option Bundle) : option string :=
  match missing "executive_summary" (d_executive_summary d) with
  | Some m => Some m
  | None =>
  match missing "technical_outlook" (d_technical_outlook d) with
  | Some m => Some m
  | None =>
  match missing "risks" (d_risks d) with
  | Some m => Some m
  | None =>
  match missing "strategy" (d_strategy d) with
  | Some m => Some m
  | None => parity d b
  end end end end.

(** Modelled from the spec: the edge from [Reviewing] to [Done] with the
    accepted draft. *)
Definition finish (x : Execution) (d : option Draft) : Execution :=
  let s := state x in
  {| phase := Done;
     state := {| ticker := ticker s; ohlcv := ohlcv s; indicators := indicators s;
                 news := news s; draft_report := d;
                 critic_feedback := critic_feedback s;
                 revision_count := revision_count s |};
     writerCalls := writerCalls x; drafterCalls := drafterCalls x;
     priceAttempts := priceAttempts x |}.

(** Modelled from the spec: the edge from [Reviewing] back to [Drafting]:
    one more revision counted, the mismatch attached as feedback. *)
Definition revise (x : Execution) (feedback : string) : Execution :=
  let s := state x in
  {| phase := Drafting;
     state := {| ticker := ticker s; ohlcv := ohlcv s; indicators := indicators s;
                 news := news s; draft_report := draft_report s;
                 critic_feedback := Some feedback;
                 revision_count := S (revision_count s) |};
     writerCalls := writerCalls x; drafterCalls := drafterCalls x;
     priceAttempts := priceAttempts x |}.

(** Modelled from the spec: whether the Critic rejects the current draft, and
    with which feedback. *)
Definition rejection (x : Execution) : option string :=
  match draft_report (state x) with
  | Some d => review d (indicators (state x))
  | None => Some "missing draft"
  end.

(** Modelled from the spec: the Critic stage. A rejected draft goes back to
    the Writer with the feedback and one more revision counted, unless the
    count has already reached 2: then the draft is accepted as it is with
    confidence [Low]. An accepted draft gets the confidence its data implies. *)
Definition critic (x : Execution) : Execution :=
  let s := state x in
  match rejection x with
  | Some feedback =>
      if (2 <=? revision_count s)%nat
      then finish x (option_map (withConfidence Low) (draft_report s))
      else revise x feedback
  | None =>
      finish x (option_map (withConfidence (completeness (indicators s) (news s)))
                           (draft_report s))
  end.

(** Modelled from the spec: one edge of the orchestrator's state machine. *)
Definition step (x : Execution) : Execution :=
  match phase x with
  | Submitted =>
      {| phase := Researching; state := state x; writerCalls := writerCalls x;
         drafterCalls := drafterCalls x; priceAttempts := priceAttempts x |}
  | Researching => researcher x
  | Analyzing => analyst x
  | Drafting => writer x
  | Reviewing => critic x
  | Done | Failed _ => x
  end.

(** Modelled from the spec: [n] edges of the state machine in a row. *)
Fixpoint steps (n : nat) (x : Execution) : Execution :=
  match n with
  | O => x
  | S n => steps n (step x)
  end.

(** Modelled from the spec: the orchestrator drives the machine with a hard
    ceiling of iterations; nine edges are the longest path of the machine. *)
Definition execute (t : string) : Execution := steps 9 (start t).

(** *** Task registry and status API *)

















(** *** Vocabulary of the properties *)

(** How the Writer calls relate to the revision counter in each state of
    the machine. *)
Definition Budget (x : Execution) : Prop :=
  match phase x with
  | Submitted | Researching | Analyzing =>
      writerCalls x = 0%nat /\ revision_count (state x) = 0%nat
  | Drafting =>
      writerCalls x = revision_count (state x) /\ (revision_count (state x) <= 2)%nat
  | Reviewing =>
      writerCalls x = S (revision_count (state x)) /\ (revision_count (state x) <= 2)%nat
  | Done | Failed _ => (writerCalls x <= 3)%nat
  end.

(** An upper bound of the number of edges left before a terminal state. *)
Definition rank (x : Execution) : nat :=
  match phase x with
  | Submitted => 9
  | Researching => 8
  | Analyzing => 7
  | Drafting => 6 - 2 * revision_count (state x)
  | Reviewing => 5 - 2 * revision_count (state x)
  | Done | Failed _ => 0
  end.



End Pipeline.

End Backend.

(** ** Sample inputs *)

Module Samples.

Import Page.

(** A news item whose score is present and equal to zero. *)
Definition zeroScoreItem : NewsItem :=
  {| title := "Markets flat"; url := "https://example.com/a";
     excerpt := "No change."; score := Some 0%float |}.

Definition scoredItem : NewsItem :=
  {| title := "Rally"; url := "https://example.com/b"; excerpt := "Up.";
     score := Some 0.5%float |}.

Definition unscoredItem : NewsItem :=
  {| title := "Rally"; url := "https://example.com/b"; excerpt := "Up.";
     score := None |}.

(** A rising candle with a volume and a falling candle without one. *)
Definition rising : Chart.Candle :=
  {| Chart.time := "2024-01-02"; Chart.open := 10; Chart.high := 12; Chart.low := 9;
     Chart.close := 11; Chart.volume := Some 1000%float |}.

Definition falling : Chart.Candle :=
  {| Chart.time := "2024-01-03"; Chart.open := 11; Chart.high := 11; Chart.low := 8;
     Chart.close := 9; Chart.volume := None |}.

Definition chartProps : Chart.Props :=
  {| Chart.candles := [rising; falling]; Chart.indicators := None;
     Chart.rsi := None; Chart.macdProp := None |}.

Definition historyBody : HistoryJson :=
  {| h_candles := Some [rising; falling]; h_indicators := None;
     h_rsi := None; h_macd := None |}.

(** The load parked as promise [p] ends with a history and no news. *)
Definition loaded (p : nat) : Event :=
  LoadSettled p (Response true 200 (Json historyBody))
              (Response true 200 (Json {| n_news := Some [] |})).

Definition accepted (p : nat) (id : string) : Event :=
  AnalyzeSettled p (Response true 200 (Json {| task_id := Some id |})).

(** The first load ends, the user types a ticker and starts an analysis,
    the backend accepts it, and the first poll leaves 1.5 s later. *)
Definition submitted : list Event :=
  [loaded 0; TypeTicker "msft"; ClickAnalyze; accepted 1 "task-0"].

Definition polled : list Event :=
  submitted ++ [TimePasses 1500; TimerFires 0].

(** An analysis starts, and a refresh starts while it is in flight. *)
Definition refreshed : list Event := [loaded 0; ClickAnalyze; ClickRefresh].

Definition world (es : list Event) : World :=
  match run Rev2 None (mounted Rev2 None) es with
  | Some w => w
  | None => mounted Rev2 None
  end.

Definition after (w : World) (e : Event) : World :=
  match step Rev2 None w e with Some w' => w' | None => w end.

Definition completeTask : TaskJson :=
  {| t_status := Some "complete";
     t_result := Some {| draft_report := Some
       {| executive_summary := Some "Steady."; technical_outlook := Some "Neutral.";
          risks := Some "Rates."; strategy := Some "Hold.";
          technical_indicators := None; confidence := Some "High" |} |};
     t_error := None |}.


Definition completed : Event := PollSettled 2 (Response true 200 (Json completeTask)).


(** A draft whose narrative keys are all present. *)
Definition fullDraft : Backend.Draft :=
  {| Backend.d_executive_summary := Some "Steady.";
     Backend.d_technical_outlook := Some "Neutral.";
     Backend.d_risks := Some "Rates.";
     Backend.d_strategy := Some "Hold.";
     Backend.d_confidence := None;
     Backend.d_technical_indicators := Some "{}" |}.

(** Collaborators whose Drafter always quotes a wrong number: the Critic
    rejects every draft. *)
Definition wrongNumbers : Backend.Collaborators :=
  {| Backend.Series := unit; Backend.Bundle := unit; Backend.NewsItem := unit;
     Backend.indicatorEngine := fun s => s;
     Backend.priceSource := fun _ _ => Some tt;
     Backend.newsSource := fun _ => None;
     Backend.drafter := fun _ _ => "{}";
     Backend.parseDraft := fun _ => Some fullDraft;
     Backend.parity := fun _ _ => Some "rsi: expected 55.1, found 60";
     Backend.completeness := fun _ _ => Backend.High |}.

(** The execution with these collaborators after eight edges: the third
    draft is under review. *)
Definition thirdReview : Backend.Execution :=
  Backend.steps (H := wrongNumbers) 8 (Backend.start "AAPL").


(** Props whose 50-day average is present; the other two are missing. *)
Definition averages : list Chart.LineData :=
  [{| Chart.line_time := "2024-01-02"; Chart.line_value := 10.5 |}].

Definition overlayProps : Chart.Props :=
  {| Chart.candles := [rising; falling];
     Chart.indicators :=
       Some {| Chart.sma50 := Some averages; Chart.sma200 := None; Chart.ema20 := None |};
     Chart.rsi := None; Chart.macdProp := None |}.



(** Both fetches of the first load are rejected. *)
Definition offline : Event :=
  LoadSettled 0 (Rejected "TypeError: Failed to fetch") (Rejected "TypeError: Failed to fetch").

(** The history arrives and the news body is [null]. *)
Definition nullNews : Event :=
  LoadSettled 0 (Response true 200 (Json historyBody)) (Response true 200 JsonNull).

(** The backend answers the analyze request with a validation error. *)
Definition refused (p : nat) : Event :=
  AnalyzeSettled p (Response false 422 (Json {| task_id := None |})).

(** A poll finds the task still running. *)
Definition running : Event :=
  PollSettled 2 (Response true 200
                   (Json {| t_status := Some "running"; t_result := None; t_error := None |})).

Definition steadyDraft : Report :=
  {| executive_summary := Some "Steady."; technical_outlook := Some "Neutral.";
     risks := Some "Rates."; strategy := Some "Hold.";
     technical_indicators := None; confidence := Some "High" |}.

(** A state of the page with two news items. *)
Definition withNews : State := setNews [zeroScoreItem; scoredItem] initialState.

End Samples.

(** * Properties *)

(** ** The chart: one volume bar per candle *)

Section ChartFacts.

Import Chart.

Lemma overlays_have_no_volume (s : ShowSMA) (i : option IndicatorSeries) :
  flat_map (fun x => match x with VolumeHistogram _ _ d => [d] | _ => [] end)
           (flat_map (overlay s i) overlayLines) = [].
Proof.
  destruct i as [[a b c]|]; [|reflexivity].
  destruct s as [x y z], a, b, c, x, y, z; reflexivity.
Qed.

Lemma volumePanel_effect (clientWidth : nat) (p : Props) (s : ShowSMA) :
  option_map volumePanel (chartEffect (Some clientWidth) p s)
  = Some [List.map volumeBar (candles p)].
Proof.
  unfold chartEffect, volumePanel; cbn [option_map series].
  cbn [app flat_map]. rewrite !flat_map_app, overlays_have_no_volume.
  destruct (rsi p), (macdProp p); reflexivity.
Qed.

(** C9: when the chart is drawn, the volume sub-panel holds one histogram
    series whose bars correspond one to one, in order, to the candles of the
    input: the bar of a candle carries the candle's time, its volume (0 when
    the volume is absent), and the up colour exactly when close >= open. *)
Theorem C9_volume_bar_per_candle (clientWidth : nat) (p : Props) (s : ShowSMA) :
  exists (c : ChartInstance) (bars : list VolumeBar),
    chartEffect (Some clientWidth) p s = Some c
    /\ volumePanel c = [bars]
    /\ length bars = length (candles p)
    /\ forall (i : nat) (candle : Candle),
         candles p !! i = Some candle ->
         exists bar : VolumeBar,
           bars !! i = Some bar
           /\ bar_time bar = time candle
           /\ bar_value bar = match volume candle with Some v => v | None => 0%float end
           /\ (bar_color bar = upColor <-> PrimFloat.leb (open candle) (close candle) = true)
           /\ (bar_color bar = downColor <-> PrimFloat.leb (open candle) (close candle) = false).
Proof.
  pose proof (volumePanel_effect clientWidth p s) as H.
  destruct (chartEffect (Some clientWidth) p s) as [c|] eqn:E; [|discriminate].
  exists c, (List.map volumeBar (candles p)).
  split; [reflexivity|]. split; [now injection H|].
  split; [apply length_map|].
  intros i candle Hi. exists (volumeBar candle).
  split; [now rewrite list_lookup_fmap, Hi|].
  split; [reflexivity|]. split; [reflexivity|].
  unfold volumeBar, geq; cbn.
  destruct (PrimFloat.leb (open candle) (close candle)); split; split; intros H'; try reflexivity;
    discriminate H'.
Qed.

End ChartFacts.

(** ** Numbers: the text of [toFixed(2)] *)

Section NumberFacts.

Lemma string_of_uint_allDigits (d : Decimal.uint) :
  JS.allDigits (NilEmpty.string_of_uint d) = true.
Proof. induction d; cbn [JS.allDigits NilEmpty.string_of_uint]; auto. Qed.

Lemma digits_allDigits (n : Z) : JS.allDigits (JS.digits n) = true.
Proof.
  unfold JS.digits, NilZero.string_of_uint.
  destruct (N.to_uint (Z.to_N n)); try reflexivity;
    match goal with
    | |- JS.allDigits (NilEmpty.string_of_uint ?d) = true => apply string_of_uint_allDigits
    end.
Qed.

Lemma digits_length (n : Z) : (1 <= String.length (JS.digits n))%nat.
Proof.
  unfold JS.digits, NilZero.string_of_uint.
  destruct (N.to_uint (Z.to_N n)); cbn; lia.
Qed.

Lemma length_append (a b : string) :
  String.length (a ++ b) = (String.length a + String.length b)%nat.
Proof. induction a as [|c a IH]; simpl; [reflexivity | now f_equal]. Qed.

Lemma length_zeros (n : nat) : String.length (JS.zeros n) = n.
Proof. induction n as [|n IH]; simpl; [reflexivity | now f_equal]. Qed.

Lemma allDigits_append (a b : string) :
  JS.allDigits a = true -> JS.allDigits b = true -> JS.allDigits (a ++ b) = true.
Proof.
  induction a as [|c a IH]; [auto|].
  change (JS.allDigits (String c a))
    with (JS.isDigit c && JS.allDigits a).
  change (JS.allDigits (String c a ++ b))
    with (JS.isDigit c && JS.allDigits (a ++ b)).
  intros [Hc Ha]%andb_true_iff Hb. rewrite Hc. auto.
Qed.

Lemma allDigits_zeros (n : nat) : JS.allDigits (JS.zeros n) = true.
Proof. induction n as [|n IH]; cbn; auto. Qed.

Lemma substring_length (s : string) (n m : nat) :
  (n + m <= String.length s)%nat -> String.length (substring n m s) = m.
Proof.
  revert n m. induction s as [|c s IH]; intros [|n] [|m]; cbn; try lia.
  - intros Hl. rewrite IH; lia.
  - intros Hl. apply IH. lia.
  - intros Hl. apply IH. lia.
Qed.

Lemma allDigits_substring (s : string) (n m : nat) :
  JS.allDigits s = true -> JS.allDigits (substring n m s) = true.
Proof.
  revert n m. induction s as [|c s IH]; intros n m; [destruct n, m; reflexivity|].
  change (JS.allDigits (String c s)) with (JS.isDigit c && JS.allDigits s).
  intros [Hc Hs]%andb_true_iff. destruct n as [|n], m as [|m].
  - reflexivity.
  - change (JS.isDigit c && JS.allDigits (substring 0 m s) = true).
    rewrite Hc. now apply IH.
  - now apply (IH n 0%nat).
  - now apply (IH n (S m)).
Qed.

(** Below 10^21 the text of [toFixed(2)] is a sign, at least one digit, a
    point and two digits. *)
Lemma toFixed_two_decimals (x : float) (neg : bool) (m e : Z) :
  JS.magnitude x = Some (neg, m, e) ->
  JS.huge m e = false ->
  exists whole frac : string,
    JS.toFixed x 2 = (if neg then "-" else "") ++ whole ++ "." ++ frac
    /\ (1 <= String.length whole)%nat
    /\ String.length frac = 2%nat
    /\ JS.allDigits whole = true
    /\ JS.allDigits frac = true.
Proof.
  intros Hm Hh. unfold JS.toFixed. rewrite Hm, Hh.
  set (ds0 := JS.digits (JS.scaled m e 2)).
  set (ds := if (String.length ds0 <=? 2)%nat
             then JS.zeros (2 + 1 - String.length ds0) ++ ds0 else ds0).
  assert (3 <= String.length ds)%nat as Hlen.
  { subst ds. pose proof (digits_length (JS.scaled m e 2)) as H1. fold ds0 in H1.
    destruct (Nat.leb_spec (String.length ds0) 2).
    - rewrite length_append, length_zeros. lia.
    - lia. }
  assert (JS.allDigits ds = true) as Hds.
  { subst ds. pose proof (digits_allDigits (JS.scaled m e 2)) as H1. fold ds0 in H1.
    destruct (String.length ds0 <=? 2)%nat; [|assumption].
    apply allDigits_append; [apply allDigits_zeros | assumption]. }
  exists (substring 0 (String.length ds - 2) ds), (substring (String.length ds - 2) 2 ds).
  split; [reflexivity|].
  rewrite !substring_length by lia.
  split; [lia|]. split; [reflexivity|].
  split; now apply allDigits_substring.
Qed.

Example toFixed_half : JS.toFixed 0.5%float 2 = "0.50".
Proof. vm_compute. reflexivity. Qed.

Example toFixed_tie_rounds_up : JS.toFixed 0.125%float 2 = "0.13".
Proof. vm_compute. reflexivity. Qed.

Example toFixed_small_negative : JS.toFixed (-0.0009765625)%float 2 = "-0.00".
Proof. vm_compute. reflexivity. Qed.

Example toFixed_negative_zero : JS.toFixed (-0)%float 2 = "0.00".
Proof. vm_compute. reflexivity. Qed.

Example toFixed_huge : JS.toFixed 1180591620717411303424%float 2 = "1.1805916207174113e+21".
Proof. vm_compute. reflexivity. Qed.

Example toFixed_infinity : JS.toFixed neg_infinity 2 = "-Infinity".
Proof. vm_compute. reflexivity. Qed.

End NumberFacts.

(** ** The news panel *)

Section NewsFacts.

Import Page.

(** C5, as stated, fails: the score of [Samples.zeroScoreItem] is present, its
    two-decimal format is "0.00", and the badge reads "Neutral". *)
Lemma C5_present_zero_score_renders_neutral :
  score Samples.zeroScoreItem = Some 0%float
  /\ JS.toFixed 0%float 2 = "0.00"
  /\ badge Samples.zeroScoreItem = "Neutral"
  /\ badge Samples.zeroScoreItem <> JS.toFixed 0%float 2.
Proof. repeat split; try reflexivity. vm_compute. discriminate. Qed.

(** C5, amended: the badge reads "Neutral" when the score is absent and when
    it is zero or not a number; for every other score it is the score
    formatted by [toFixed(2)], which for a finite score below 10^21 is a
    sign, at least one digit, a point and two digits. *)
Theorem C5_badge (item : NewsItem) :
  (score item = None -> badge item = "Neutral")
  /\ (forall s : float,
        score item = Some s ->
        PrimFloat.eqb s 0%float = true \/ PrimFloat.is_nan s = true ->
        badge item = "Neutral")
  /\ (forall s : float,
        score item = Some s ->
        PrimFloat.eqb s 0%float = false ->
        PrimFloat.is_nan s = false ->
        badge item = JS.toFixed s 2)
  /\ (forall (s : float) (neg : bool) (m e : Z),
        score item = Some s ->
        PrimFloat.eqb s 0%float = false ->
        PrimFloat.is_nan s = false ->
        JS.magnitude s = Some (neg, m, e) ->
        JS.huge m e = false ->
        exists whole frac : string,
          badge item = (if neg then "-" else "") ++ whole ++ "." ++ frac
          /\ (1 <= String.length whole)%nat
          /\ String.length frac = 2%nat
          /\ JS.allDigits whole = true
          /\ JS.allDigits frac = true).
Proof.
  assert (forall s : float,
             score item = Some s ->
             PrimFloat.eqb s 0%float = false ->
             PrimFloat.is_nan s = false ->
             badge item = JS.toFixed s 2) as Hfixed.
  { unfold badge. intros s -> H1 H2.
    unfold JS.truthy, JS.truthy_number. now rewrite H1, H2. }
  split; [|split; [|split]].
  - unfold badge. intros ->. reflexivity.
  - unfold badge. intros s -> [Hz|Hn]; unfold JS.truthy, JS.truthy_number.
    + now rewrite Hz.
    + rewrite Hn, orb_true_r. reflexivity.
  - exact Hfixed.
  - intros s neg m e Hs Hz Hn Hm Hh.
    rewrite (Hfixed s Hs Hz Hn). exact (toFixed_two_decimals s neg m e Hm Hh).
Qed.

Lemma C5_badge_witness :
  badge Samples.scoredItem = "0.50"
  /\ badge Samples.unscoredItem = "Neutral"
  /\ badge Samples.zeroScoreItem = "Neutral"
  /\ exists whole frac : string,
       badge Samples.scoredItem = "" ++ whole ++ "." ++ frac
       /\ String.length frac = 2%nat.
Proof.
  destruct (C5_badge Samples.scoredItem) as (_ & _ & Hfixed & Hshape).
  split; [|split; [|split]].
  - rewrite (Hfixed 0.5%float); reflexivity.
  - apply (proj1 (C5_badge Samples.unscoredItem)). reflexivity.
  - apply (proj1 (proj2 (C5_badge Samples.zeroScoreItem)) 0%float);
      [reflexivity | left; reflexivity].
  - destruct (Hshape 0.5%float false 4503599627370496%Z (-53)%Z)
      as (whole & frac & Hb & _ & Hf & _); try reflexivity.
    exists whole, frac. split; assumption.
Defined.

End NewsFacts.

(** ** The dashboard: what one poll response does *)

Section PollFacts.

Import Page.

Variable rev : Revision.
Variable env : option string.

Lemma isStatus_true (task : TaskJson) (s : string) :
  t_status task = Some s -> isStatus task s = true.
Proof. intros H. unfold isStatus. now apply bool_decide_eq_true. Qed.

Lemma isStatus_false (task : TaskJson) (s s' : string) :
  t_status task = Some s -> s <> s' -> isStatus task s' = false.
Proof.
  intros H Hne. unfold isStatus. apply bool_decide_eq_false. rewrite H. congruence.
Qed.

Lemma onTask_complete (id : nat) (task : TaskJson) (w : World) :
  t_status task = Some "complete" ->
  onTask rev id task w
  = onUi (setStatus idle)
      (onUi (setReport (JS.or (draftOf task) emptyReport)) (clearInterval id w)).
Proof.
  intros H. unfold onTask.
  rewrite (isStatus_true _ _ H), (isStatus_false _ _ "error" H); [reflexivity|discriminate].
Qed.


Lemma onTask_other (id : nat) (task : TaskJson) (w : World) :
  terminalTask task = false -> onTask rev id task w = w.
Proof.
  unfold terminalTask, onTask. intros [-> ->]%orb_false_elim. reflexivity.
Qed.

(** Without a cause in the body the second revision falls back to its
    generic message. *)
Lemma onTask_error_without_cause (id : nat) (task : TaskJson) (w : World) :
  t_status task = Some "error" ->
  t_error task = None \/ t_error task = Some "" ->
  errorMsg (ui (onTask Rev2 id task w)) = genericFailure
  /\ status (ui (onTask Rev2 id task w)) = idle.
Proof.
  intros Hs He. unfold onTask.
  rewrite (isStatus_true _ _ Hs), (isStatus_false _ _ "complete" Hs) by discriminate.
  destruct He as [-> | ->]; split; reflexivity.
Qed.

Lemma step_pollSettled (w w' : World) (p : nat) (res : Fetched TaskJson) :
  step rev env w (PollSettled p res) = Some w' ->
  exists (id : nat) (taskId : option string),
    awaiting w !! p = Some (PPoll id taskId) /\ w' = pollSettled rev id res (settle p w).
Proof.
  cbn. destruct (awaiting w !! p) as [[| |id taskId]|]; try discriminate.
  intros [= <-]. eauto.
Qed.

(** C2: a poll response whose status is "complete" stores
    [result.draft_report] as the report, the empty report when [result] or
    [draft_report] is absent, and sets the status to idle. *)
Theorem C2_complete_stores_report (w w' : World) (p : nat) (ok : bool) (code : nat)
    (task : TaskJson) :
  t_status task = Some "complete" ->
  step rev env w (PollSettled p (Response ok code (Json task))) = Some w' ->
  report (ui w')
  = match t_result task with
    | Some result =>
        match draft_report result with
        | Some draft => draft
        | None => emptyReport
        end
    | None => emptyReport
    end
  /\ status (ui w') = idle.
Proof.
  intros Hs (id & taskId & _ & ->)%step_pollSettled.
  cbn [pollSettled]. rewrite onTask_complete by assumption. cbn.
  split; [|reflexivity].
  unfold draftOf. destruct (t_result task) as [[[d|]]|]; reflexivity.
Qed.

End PollFacts.

(** ** The dashboard: what a finished market-data load does *)

Section LoadFacts.

Import Page.

Variable env : option string.

Lemma step_loadSettled (rev : Revision) (w w' : World) (p : nat)
    (prices : Fetched HistoryJson) (newsRes : Fetched NewsJson) :
  step rev env w (LoadSettled p prices newsRes) = Some w' ->
  awaiting w !! p = Some PLoad /\ w' = loadSettled rev prices newsRes (settle p w).
Proof.
  cbn. destruct (awaiting w !! p) as [[| |id taskId]|]; try discriminate.
  intros [= <-]. auto.
Qed.

(** C7: after a load whose two responses arrived and parsed, the state holds
    the fields of the history response: the candles as returned, the
    indicators or the empty object, the RSI series or the empty list, the
    MACD series or null. *)
Theorem C7_load_stores_history (w w' : World) (p : nat) (ok1 ok2 : bool)
    (code1 code2 : nat) (pricesJson : HistoryJson) (newsJson : NewsJson) :
  step Rev2 env w
    (LoadSettled p (Response ok1 code1 (Json pricesJson)) (Response ok2 code2 (Json newsJson)))
  = Some w' ->
  candles (ui w') = h_candles pricesJson
  /\ indicators (ui w')
     = match h_indicators pricesJson with Some i => i | None => emptyIndicators end
  /\ rsiSeries (ui w') = match h_rsi pricesJson with Some r => r | None => [] end
  /\ macdSeries (ui w') = h_macd pricesJson.
Proof.
  intros [_ ->]%step_loadSettled. cbn.
  destruct (h_indicators pricesJson), (h_rsi pricesJson); auto.
Qed.

(** The first revision of the page stores the candles only. *)
Lemma load_stores_candles_first (w w' : World) (p : nat) (ok1 ok2 : bool)
    (code1 code2 : nat) (pricesJson : HistoryJson) (newsJson : NewsJson) :
  step Rev1 env w
    (LoadSettled p (Response ok1 code1 (Json pricesJson)) (Response ok2 code2 (Json newsJson)))
  = Some w' ->
  candles (ui w') = h_candles pricesJson
  /\ indicators (ui w') = indicators (ui w)
  /\ rsiSeries (ui w') = rsiSeries (ui w)
  /\ macdSeries (ui w') = macdSeries (ui w).
Proof. intros [_ ->]%step_loadSettled. cbn. auto. Qed.


End LoadFacts.

(** ** The dashboard: invariants of the event loop *)

(** Case analysis on every [match] of a handler once the event is known. *)
Ltac split_cases :=
  repeat match goal with
         | E : ?x = _ |- context [match ?x with _ => _ end] => rewrite E
         | H : context [match ?x with _ => _ end] |- _ => destruct x eqn:?
         | |- context [match ?x with _ => _ end] => destruct x eqn:?
         end.

Tactic Notation "step_inv" hyp(H) :=
  unfold Page.step, Page.refreshDisabled, Page.analyzeDisabled in H;
  cbn in H; split_cases; try discriminate;
  injection H as <-.

Section Reachability.

Import Page.

Variable rev : Revision.
Variable env : option string.

Lemma run_invariant (P : World -> Prop) :
  (forall w e w', P w -> step rev env w e = Some w' -> P w') ->
  forall es w w', P w -> run rev env w es = Some w' -> P w'.
Proof.
  intros Hstep. induction es as [|e es IH]; intros w w' Hw; cbn.
  - now intros [= <-].
  - destruct (step rev env w e) as [w1|] eqn:E; [|discriminate]. eauto.
Qed.


(** The log of requests grows by what the event emits. *)
Lemma step_sent (w w' : World) (e : Event) :
  step rev env w e = Some w' -> sent w' = (sent w ++ emitted rev env w e)%list.
Proof.
  intros H. destruct e; step_inv H; unfold emitted;
    unfold loadSettled, analyzeSettled, pollSettled, onTask, analyzeFailed, loadFailed,
      loadMarketData, handleAnalyze, pollTick, inSecond;
    destruct rev; cbn; split_cases; cbn;
    rewrite ?app_nil_r, <- ?app_assoc; try reflexivity; congruence.
Qed.





Lemma mounted_sent :
  sent (mounted rev env)
  = [(0%N, get (historyUrl rev env "AAPL" {| label := "1Y"; period := "1y"; interval := "1d" |}));
     (0%N, get (newsUrl rev env "AAPL"))].
Proof. unfold mounted, loadMarketData, inSecond. destruct rev; reflexivity. Qed.



(** *** Timers *)

Lemma isStatus_exclusive (task : TaskJson) :
  isStatus task "complete" = true -> isStatus task "error" = false.
Proof.
  unfold isStatus. intros H%bool_decide_eq_true. apply bool_decide_eq_false.
  rewrite H. discriminate.
Qed.

Lemma onTask_timers (id : nat) (task : TaskJson) (w : World) :
  timers (onTask rev id task w)
  = (if terminalTask task then delete id (timers w) else timers w)
  /\ nextTimer (onTask rev id task w) = nextTimer w
  /\ now (onTask rev id task w) = now w
  /\ awaiting (onTask rev id task w) = awaiting w
  /\ nextPromise (onTask rev id task w) = nextPromise w.
Proof.
  unfold onTask, terminalTask, inSecond.
  destruct (isStatus task "complete") eqn:Ec.
  - rewrite (isStatus_exclusive _ Ec). cbn. auto.
  - destruct (isStatus task "error"), rev; cbn; auto.
Qed.

Lemma step_timers (w w' : World) (e : Event) :
  step rev env w e = Some w' -> TimerChange rev w e w'.
Proof.
  intros H. destruct e.
  - step_inv H. now apply timers_kept.
  - step_inv H; apply timers_kept; try easy;
      unfold loadMarketData, inSecond; destruct rev; reflexivity.
  - step_inv H. apply timers_kept; try easy;
      unfold loadMarketData, inSecond; destruct rev; reflexivity.
  - step_inv H. apply timers_kept; try easy;
      unfold handleAnalyze, inSecond; destruct rev; reflexivity.
  - step_inv H; apply timers_kept; try easy;
      unfold loadSettled, loadFailed, inSecond; destruct rev; cbn; split_cases; reflexivity.
  - step_inv H.
    destruct res as [err|ok code body]; cbn.
    + apply timers_kept; try easy; unfold analyzeFailed, inSecond; destruct rev; reflexivity.
    + destruct (second rev && negb ok) eqn:Eok.
      * apply timers_kept; try easy; unfold analyzeFailed, inSecond; destruct rev; reflexivity.
      * destruct body as [err| |j];
          try (apply timers_kept; try easy; unfold analyzeFailed, inSecond;
               destruct rev; reflexivity).
        eapply timer_armed; try reflexivity. cbn. now rewrite Eok.
  - step_inv H. eapply timer_fired; try reflexivity; eauto.
  - apply step_pollSettled in H as (id & taskId & Hp & ->).
    destruct (terminalResponse res) eqn:Et.
    + destruct res as [|? ? [| |task]]; try discriminate. cbn in Et.
      destruct (onTask_timers id task (settle p w)) as (Ht & Hn & _).
      eapply timer_cleared; eauto; cbn [pollSettled].
      now rewrite Ht, Et.
    + apply timers_kept; try easy.
      * destruct res as [|? ? [| |task]]; try reflexivity. cbn in Et. cbn [pollSettled].
        destruct (onTask_timers id task (settle p w)) as (-> & _). now rewrite Et.
      * destruct res as [|? ? [| |task]]; try reflexivity. cbn [pollSettled].
        now destruct (onTask_timers id task (settle p w)) as (_ & -> & _).
      * now intros ? ? [= <- <-].
  - step_inv H. now apply timers_kept.
Qed.









(** *** Polls are sent by timers only *)



Lemma analyzeSettled_ok (ok : bool) (code : nat) (j : AnalyzeJson) (w : World) :
  analyzeFails rev (Response ok code (Json j)) = false ->
  analyzeSettled rev (Response ok code (Json j)) w = pollTask (task_id j) w.
Proof.
  cbn. rewrite orb_false_r. intros ->. reflexivity.
Qed.


End Reachability.

(** ** The pipeline: bounded revision and termination *)

Section PipelineFacts.

Import Backend.

Context `{Collaborators}.

Lemma start_budget (t : string) : Budget (start t).
Proof. split; reflexivity. Qed.

Lemma fetchPrices_attempts (t : string) (budget attempt : nat) :
  (snd (fetchPrices t attempt budget) <= attempt + budget)%nat.
Proof.
  revert attempt. induction budget as [|budget IH]; intros attempt; cbn; [lia|].
  destruct (priceSource t attempt); cbn; [lia|].
  specialize (IH (S attempt)). lia.
Qed.

Lemma step_budget (x : Execution) : Budget x -> Budget (step x).
Proof.
  unfold Budget, step. destruct (phase x) eqn:E; intros Hb; cbn beta iota in Hb.
  - cbn. assumption.
  - unfold researcher. destruct (fetchPrices _ 0 3) as [[series|] n]; cbn; lia.
  - cbn. lia.
  - unfold writer. destruct (parseDraft _); cbn; [lia|].
    destruct (parseDraft _); cbn; lia.
  - unfold critic. destruct (rejection x); [|cbn; lia].
    cbn zeta. destruct (Nat.leb_spec 2 (revision_count (state x))); cbn; lia.
  - rewrite E. assumption.
  - rewrite E. assumption.
Qed.

Lemma steps_budget (n : nat) (x : Execution) : Budget x -> Budget (steps n x).
Proof. revert x. induction n as [|n IH]; cbn; auto using step_budget. Qed.

Lemma budget_writerCalls (x : Execution) : Budget x -> (writerCalls x <= 3)%nat.
Proof. unfold Budget. destruct (phase x); lia. Qed.

Lemma step_rank (x : Execution) :
  Budget x -> terminal (phase x) = false -> (rank (step x) < rank x)%nat.
Proof.
  unfold Budget, rank, step. destruct (phase x) eqn:E; cbn [terminal]; try discriminate;
    intros Hb _; cbn beta iota in Hb.
  - cbn. lia.
  - unfold researcher. destruct (fetchPrices _ 0 3) as [[series|] n]; cbn; lia.
  - cbn. lia.
  - unfold writer. destruct (parseDraft _); cbn; [lia|].
    destruct (parseDraft _); cbn; lia.
  - unfold critic. destruct (rejection x); [|cbn; lia].
    cbn zeta. destruct (Nat.leb_spec 2 (revision_count (state x))); cbn; lia.
Qed.

Lemma step_terminal (x : Execution) : terminal (phase x) = true -> step x = x.
Proof. unfold step. destruct (phase x); try discriminate; reflexivity. Qed.

Lemma steps_terminal (n : nat) (x : Execution) :
  terminal (phase x) = true -> steps n x = x.
Proof.
  induction n as [|n IH]; cbn; [reflexivity|].
  intros Hx. rewrite (step_terminal _ Hx). auto.
Qed.

Lemma steps_reach_terminal (n : nat) (x : Execution) :
  Budget x -> (rank x <= n)%nat -> terminal (phase (steps n x)) = true.
Proof.
  revert x. induction n as [|n IH]; intros x Hb Hr; cbn.
  - unfold rank in Hr. unfold Budget in Hb.
    destruct (phase x); try reflexivity; lia.
  - destruct (terminal (phase x)) eqn:Et.
    + rewrite (step_terminal _ Et), (steps_terminal _ _ Et). assumption.
    + apply IH; [now apply step_budget|].
      pose proof (step_rank _ Hb Et). lia.
Qed.

Lemma steps_add (n m : nat) (x : Execution) : steps (n + m) x = steps m (steps n x).
Proof. revert x. induction n as [|n IH]; cbn; auto. Qed.

(** C4: in every execution of the pipeline the Writer is invoked at most
    three times; the pipeline is in a terminal state after at most nine
    edges and stays there; and when the Critic rejects a draft with
    [revision_count] already at 2, the next state is [Done] with the current
    draft, its confidence set to [Low], and no further Writer call, while a
    rejection below 2 goes back to the Writer with one more revision
    counted. *)
Theorem C4_revision_loop_is_bounded (t : string) :
  (forall n, (writerCalls (steps n (start t)) <= 3)%nat)
  /\ terminal (phase (execute t)) = true
  /\ (forall n, (9 <= n)%nat -> steps n (start t) = execute t)
  /\ (forall x feedback,
        phase x = Reviewing ->
        rejection x = Some feedback ->
        (revision_count (state x) = 2%nat ->
           phase (step x) = Done
           /\ draft_report (state (step x))
              = option_map (withConfidence Low) (draft_report (state x))
           /\ writerCalls (step x) = writerCalls x
           /\ forall n, writerCalls (steps n (step x)) = writerCalls x)
        /\ ((revision_count (state x) < 2)%nat ->
             phase (step x) = Drafting
             /\ revision_count (state (step x)) = S (revision_count (state x))
             /\ critic_feedback (state (step x)) = Some feedback)).
Proof.
  unfold execute. generalize (start_budget t). generalize (start t) as x0. intros x0 Hb.
  assert (terminal (phase (steps 9 x0)) = true) as Hterm.
  { apply steps_reach_terminal; [assumption|].
    unfold rank, Budget in *. destruct (phase x0); lia. }
  split; [|split; [|split]].
  - intros n. now apply budget_writerCalls, steps_budget.
  - exact Hterm.
  - intros n Hn. replace n with (9 + (n - 9))%nat by lia.
    rewrite (steps_add 9 (n - 9) x0). revert Hterm. generalize (steps 9 x0) as x9.
    intros x9 Hterm. apply steps_terminal, Hterm.
  - intros x feedback Hphase Hrej. unfold step. rewrite Hphase. unfold critic. rewrite Hrej.
    split.
    + intros ->. cbn. split; [reflexivity|]. split; [reflexivity|]. split; [reflexivity|].
      intros n. now rewrite steps_terminal.
    + intros Hlt. destruct (Nat.leb_spec 2 (revision_count (state x))); [lia|].
      cbn. auto.
Qed.

End PipelineFacts.

(** ** A failed task: the cause in the record and on the page *)

Section FailureFacts.

Import Backend.

Context `{Collaborators}.










End FailureFacts.

(** ** The dashboard: the status and the Analyze button *)

Section StatusFacts.

Import Page.

Variable rev : Revision.
Variable env : option string.

Lemma onTask_status (id : nat) (task : TaskJson) (w : World) :
  status (ui (onTask rev id task w))
  = if terminalTask task then idle else status (ui w).
Proof.
  unfold onTask, terminalTask, inSecond.
  destruct (isStatus task "complete") eqn:Ec.
  - rewrite (isStatus_exclusive _ Ec). reflexivity.
  - destruct (isStatus task "error"), rev; reflexivity.
Qed.

(** The status after one turn of the event loop. *)
Lemma step_status (w w' : World) (e : Event) :
  step rev env w e = Some w' ->
  status (ui w')
  = match e with
    | SelectFrame i =>
        match TIMEFRAMES !! i with
        | Some f => if decide (f = selectedFrame (ui w)) then status (ui w) else loading
        | None => status (ui w)
        end
    | ClickRefresh => loading
    | ClickAnalyze => analyzing
    | LoadSettled _ _ _ => idle
    | AnalyzeSettled _ res => if analyzeFails rev res then idle else status (ui w)
    | PollSettled _ res => if terminalResponse res then idle else status (ui w)
    | TypeTicker _ | TimerFires _ | TimePasses _ => status (ui w)
    end.
Proof.
  intros Hstep. destruct e.
  - step_inv Hstep. reflexivity.
  - step_inv Hstep; [reflexivity|]. unfold loadMarketData, inSecond. destruct rev; reflexivity.
  - step_inv Hstep. unfold loadMarketData, inSecond. destruct rev; reflexivity.
  - step_inv Hstep. unfold handleAnalyze, inSecond. destruct rev; reflexivity.
  - step_inv Hstep. unfold loadSettled, loadFailed, inSecond.
    destruct rev; cbn; split_cases; reflexivity.
  - unfold step in Hstep. destruct (awaiting w !! p) as [[| |]|]; try discriminate.
    injection Hstep as <-.
    unfold analyzeSettled, analyzeFails, analyzeFailed, pollTask, inSecond.
    destruct rev, res as [|[] ? [| |]]; reflexivity.
  - step_inv Hstep. reflexivity.
  - apply step_pollSettled in Hstep as (id & taskId & _ & ->).
    destruct res as [|? ? [| |task]]; try reflexivity.
    cbn [pollSettled terminalResponse]. now rewrite onTask_status.
  - step_inv Hstep. reflexivity.
Qed.

(** C10, as stated, fails: after a refresh that ends while an analysis is in
    flight the status is idle again, the Analyze button is available, and a
    second analysis starts while the first is still in flight. The status
    came back to idle at the end of a load, with no terminal poll response
    and no failed analyze request. *)
Lemma C10_two_analyses_in_flight :
  run Rev2 None (mounted Rev2 None) Samples.refreshed
  = Some (Samples.world Samples.refreshed)
  /\ analysesInFlight (Samples.world Samples.refreshed) = 1%nat
  /\ status (ui (Samples.world Samples.refreshed)) = loading
  /\ step Rev2 None (Samples.world Samples.refreshed) (Samples.loaded 2)
     = Some (Samples.after (Samples.world Samples.refreshed) (Samples.loaded 2))
  /\ analysesInFlight (Samples.after (Samples.world Samples.refreshed) (Samples.loaded 2))
     = 1%nat
  /\ status (ui (Samples.after (Samples.world Samples.refreshed) (Samples.loaded 2)))
     = idle
  /\ option_map analysesInFlight
       (run Rev2 None (mounted Rev2 None)
            (Samples.refreshed ++ [Samples.loaded 2; ClickAnalyze]))
     = Some 2%nat
  /\ option_map analysesInFlight
       (run Rev1 None (mounted Rev1 None)
            (Samples.refreshed ++ [Samples.loaded 2; ClickAnalyze]))
     = Some 2%nat.
Proof. repeat match goal with |- _ /\ _ => split end; vm_compute; reflexivity. Qed.

(** C10, amended: the Analyze action is available only while the status is
    idle; starting an analysis sets the status to analyzing before its one
    request, the POST, is sent; and the status goes from another value to
    idle only at a terminal poll response, at a failed analyze request, or
    at the end of a market-data load. *)
Theorem C10_status_gate (w w' : World) (e : Event) :
  step rev env w e = Some w' ->
  (e = ClickAnalyze ->
     status (ui w) = idle
     /\ (exists w1 : World,
           status (ui w1) = analyzing
           /\ sent w1 = sent w
           /\ w' = await PAnalyze (fetch "POST" (analyzeUrl rev env (ticker (ui w))) w1))
     /\ sent w' = (sent w ++ [(now w, post (analyzeUrl rev env (ticker (ui w))))])%list
     /\ status (ui w') = analyzing)
  /\ (status (ui w) <> idle ->
      status (ui w') = idle ->
      (exists p res, e = PollSettled p res /\ terminalResponse res = true)
      \/ (exists p res, e = AnalyzeSettled p res /\ analyzeFails rev res = true)
      \/ (exists p prices newsRes, e = LoadSettled p prices newsRes)).
Proof.
  intros Hstep. split.
  - intros ->. pose proof (step_sent _ _ _ _ _ Hstep) as Hsent.
    pose proof (step_status _ _ _ Hstep) as Hstatus.
    unfold step, analyzeDisabled in Hstep.
    destruct (bool_decide (status (ui w) = idle)) eqn:Ei; [|discriminate].
    apply bool_decide_eq_true in Ei. injection Hstep as <-.
    split; [assumption|]. split; [|split; assumption].
    exists (inSecond rev (onUi (setErrorMsg ""))
              (onUi (setReport emptyReport) (onUi (setStatus analyzing) w))).
    unfold handleAnalyze, inSecond. destruct rev; cbn; auto.
  - intros Hbusy Hidle. pose proof (step_status _ _ _ Hstep) as Hstatus.
    rewrite Hidle in Hstatus.
    destruct e; try congruence; eauto 6.
    + destruct (TIMEFRAMES !! i); [|congruence].
      destruct (decide (f = selectedFrame (ui w))); congruence.
    + destruct (analyzeFails rev res) eqn:E; [eauto 6 | congruence].
    + destruct (terminalResponse res) eqn:E; [eauto 6 | congruence].
Qed.

End StatusFacts.

(** ** The theorems at the sample inputs *)

Section Witnesses.

Import Page.


Lemma C2_complete_stores_report_witness :
  report (ui (Samples.after (Samples.world Samples.polled) Samples.completed))
  = {| executive_summary := Some "Steady."; technical_outlook := Some "Neutral.";
       risks := Some "Rates."; strategy := Some "Hold.";
       technical_indicators := None; confidence := Some "High" |}
  /\ status (ui (Samples.after (Samples.world Samples.polled) Samples.completed)) = idle.
Proof.
  apply (C2_complete_stores_report Rev2 None (Samples.world Samples.polled) _ 2 true 200
           Samples.completeTask); [reflexivity | vm_compute; reflexivity].
Defined.


Lemma C4_revision_loop_is_bounded_witness :
  Backend.phase Samples.thirdReview = Backend.Reviewing
  /\ Backend.revision_count (Backend.state Samples.thirdReview) = 2%nat
  /\ Backend.phase (Backend.step Samples.thirdReview) = Backend.Done
  /\ Backend.draft_report (Backend.state (Backend.step Samples.thirdReview))
     = Some (Backend.withConfidence Backend.Low Samples.fullDraft)
  /\ Backend.writerCalls (Backend.step Samples.thirdReview) = 3%nat
  /\ (Backend.writerCalls (Backend.execute (H := Samples.wrongNumbers) "AAPL") <= 3)%nat
  /\ Backend.terminal (Backend.phase (Backend.execute (H := Samples.wrongNumbers) "AAPL"))
     = true.
Proof.
  destruct (C4_revision_loop_is_bounded (H := Samples.wrongNumbers) "AAPL")
    as (Hcalls & Hterm & _ & Hcap).
  destruct (Hcap Samples.thirdReview "rsi: expected 55.1, found 60" eq_refl eq_refl)
    as [Hforced _].
  destruct (Hforced eq_refl) as (Hdone & Hdraft & Hw & _).
  split; [reflexivity|]. split; [reflexivity|]. split; [exact Hdone|].
  split; [exact Hdraft|]. split; [rewrite Hw; reflexivity|].
  split; [exact (Hcalls 9%nat) | exact Hterm].
Defined.


Lemma C7_load_stores_history_witness :
  candles (ui (Samples.after (Samples.world []) (Samples.loaded 0)))
  = Some [Samples.rising; Samples.falling]
  /\ indicators (ui (Samples.after (Samples.world []) (Samples.loaded 0))) = emptyIndicators
  /\ rsiSeries (ui (Samples.after (Samples.world []) (Samples.loaded 0))) = []
  /\ macdSeries (ui (Samples.after (Samples.world []) (Samples.loaded 0))) = None.
Proof.
  apply (C7_load_stores_history None (Samples.world []) _ 0 true true 200 200
           Samples.historyBody {| n_news := Some [] |}).
  vm_compute; reflexivity.
Defined.


Lemma C9_volume_bar_per_candle_witness :
  exists bars : list Chart.VolumeBar,
    option_map Chart.volumePanel
      (Chart.chartEffect (Some 800%nat) Samples.chartProps Chart.initialShowSMA)
    = Some [bars]
    /\ length bars = 2%nat
    /\ exists bar : Chart.VolumeBar,
         bars !! 1%nat = Some bar
         /\ Chart.bar_value bar = 0%float
         /\ Chart.bar_color bar = Chart.downColor.
Proof.
  destruct (C9_volume_bar_per_candle 800 Samples.chartProps Chart.initialShowSMA)
    as (c & bars & -> & Hpanel & Hlen & Hbars).
  exists bars. cbn [option_map]. rewrite Hpanel. split; [reflexivity|].
  split; [exact Hlen|].
  destruct (Hbars 1%nat Samples.falling eq_refl) as (bar & Hbar & _ & Hvalue & _ & Hdown).
  exists bar. split; [exact Hbar|]. split; [exact Hvalue|].
  apply Hdown. vm_compute. reflexivity.
Defined.

Lemma C10_status_gate_witness :
  status (ui (Samples.world [Samples.loaded 0])) = idle
  /\ status (ui (Samples.after (Samples.world [Samples.loaded 0]) ClickAnalyze)) = analyzing
  /\ sent (Samples.after (Samples.world [Samples.loaded 0]) ClickAnalyze)
     = (sent (Samples.world [Samples.loaded 0])
        ++ [(0%N, post "http://localhost:8000/api/analyze?ticker=AAPL")])%list.
Proof.
  destruct (C10_status_gate Rev2 None (Samples.world [Samples.loaded 0])
              (Samples.after (Samples.world [Samples.loaded 0]) ClickAnalyze) ClickAnalyze)
    as [Hclick _]; [vm_compute; reflexivity|].
  destruct (Hclick eq_refl) as (Hidle & _ & Hsent & Hstatus).
  split; [exact Hidle|]. split; [exact Hstatus | exact Hsent].
Defined.

End Witnesses.

(** * Further properties of the code *)

(** ** The chart: overlays, sub-panels and check boxes *)

Section ChartMore.

Import Chart.

Lemma chartEffect_series (clientWidth : nat) (p : Props) (s : ShowSMA) (c : ChartInstance) :
  chartEffect (Some clientWidth) p s = Some c ->
  series c
  = ([Candlestick (candles p);
      VolumeHistogram "" "#4b5563" (List.map volumeBar (candles p))]
     ++ List.flat_map (overlay s (indicators p)) overlayLines
     ++ match rsi p with
        | Some r => [Line "#f472b6" (Some "rsi") r]
        | None => []
        end
     ++ match macdProp p with
        | Some m => [Line "#22d3ee" (Some "macd") (macd m);
                     Line "#f97316" (Some "macd") (signal m);
                     Histogram "#a78bfa" "macd" (histogram m)]
        | None => []
        end)%list.
Proof. cbn. now intros [= <-]. Qed.

(** X1: a moving-average line is on the chart exactly when its check box is
    on and the indicators carry its series; it then has the colour of its
    key and the data of the series. *)
Theorem overlay_drawn_iff_shown_and_present (clientWidth : nat) (p : Props) (s : ShowSMA)
    (c : ChartInstance) (key color : string) (data : list LineData) :
  chartEffect (Some clientWidth) p s = Some c ->
  In (key, color) overlayLines ->
  (In (Line color None data) (series c)
   <-> shown s key = true /\ indicator (indicators p) key = Some data).
Proof.
  intros Hc%chartEffect_series Hkey. rewrite Hc. clear Hc.
  rewrite !in_app_iff.
  assert (~ In (Line color None data)
            [Candlestick (candles p);
             VolumeHistogram "" "#4b5563" (List.map volumeBar (candles p))]) as H1
    by (cbn; intros [H|[H|[]]]; discriminate).
  assert (~ In (Line color None data)
            match rsi p with
            | Some r => [Line "#f472b6" (Some "rsi") r]
            | None => []
            end) as H2
    by (destruct (rsi p); cbn; intros [H|[]] || intros []; discriminate).
  assert (~ In (Line color None data)
            match macdProp p with
            | Some m => [Line "#22d3ee" (Some "macd") (macd m);
                         Line "#f97316" (Some "macd") (signal m);
                         Histogram "#a78bfa" "macd" (histogram m)]
            | None => []
            end) as H3
    by (destruct (macdProp p); cbn; intros [H|[H|[H|[]]]] || intros []; discriminate).
  assert (In (Line color None data) (flat_map (overlay s (indicators p)) overlayLines)
          <-> shown s key = true /\ indicator (indicators p) key = Some data) as H4.
  { cbn in Hkey. destruct Hkey as [[= <- <-]|[[= <- <-]|[[= <- <-]|[]]]];
      destruct (indicators p) as [[a b d]|], s as [x y z]; cbn;
      try destruct a; try destruct b; try destruct d; destruct x, y, z; cbn;
      intuition (try discriminate; try congruence). }
  tauto.
Qed.

Ltac chart_cases p s :=
  destruct (indicators p) as [[[?|] [?|] [?|]]|], (rsi p), (macdProp p), s as [[] [] []].

Lemma sub_panels_are_no_overlays (p : Props) (color : string) :
  List.filter (overlayOf color)
    (match rsi p with
     | Some r => [Line "#f472b6" (Some "rsi") r]
     | None => []
     end
     ++ match macdProp p with
        | Some m => [Line "#22d3ee" (Some "macd") (macd m);
                     Line "#f97316" (Some "macd") (signal m);
                     Histogram "#a78bfa" "macd" (histogram m)]
        | None => []
        end) = [].
Proof. destruct (rsi p), (macdProp p); reflexivity. Qed.

(** X2: a check box adds or removes the line of its own key and nothing
    else: toggling it leaves every other series of the chart as it was, and
    toggling it twice gives the chart back; each key has at most one line. *)
Theorem toggle_affects_its_line_only (clientWidth : nat) (p : Props) (s : ShowSMA) :
  let others color t :=
    option_map (fun c => List.filter (fun x => negb (overlayOf color x)) (series c))
               (chartEffect (Some clientWidth) p t) in
  let own color t :=
    option_map (fun c => List.filter (overlayOf color) (series c))
               (chartEffect (Some clientWidth) p t) in
  let line color key t :=
    if shown t key
    then match indicator (indicators p) key with
         | Some data => [Line color None data]
         | None => []
         end
    else [] in
  others "#60a5fa" (toggleSma50 s) = others "#60a5fa" s
  /\ others "#c084fc" (toggleSma200 s) = others "#c084fc" s
  /\ others "#facc15" (toggleEma20 s) = others "#facc15" s
  /\ own "#60a5fa" s = Some (line "#60a5fa" "sma50" s)
  /\ own "#c084fc" s = Some (line "#c084fc" "sma200" s)
  /\ own "#facc15" s = Some (line "#facc15" "ema20" s)
  /\ shown (toggleSma50 s) "sma50" = negb (shown s "sma50")
  /\ shown (toggleSma200 s) "sma200" = negb (shown s "sma200")
  /\ shown (toggleEma20 s) "ema20" = negb (shown s "ema20")
  /\ toggleSma50 (toggleSma50 s) = s
  /\ toggleSma200 (toggleSma200 s) = s
  /\ toggleEma20 (toggleEma20 s) = s.
Proof.
  cbv zeta. unfold chartEffect. cbn [option_map series].
  do 3 (split; [apply (f_equal Some); rewrite !List.filter_app;
                apply (f_equal (app _)), (f_equal (fun l => l ++ _)%list);
                destruct (indicators p) as [[[?|] [?|] [?|]]|], s as [[] [] []];
                reflexivity|]).
  do 3 (split; [apply (f_equal Some);
                rewrite List.filter_app, (List.filter_app _ (flat_map _ _)),
                  sub_panels_are_no_overlays, app_nil_r;
                destruct (indicators p) as [[[?|] [?|] [?|]]|], s as [[] [] []];
                reflexivity|]).
  repeat match goal with |- _ /\ _ => split end; destruct s as [[] [] []]; reflexivity.
Qed.

Lemma chart_scales (clientWidth : nat) (p : Props) (s : ShowSMA) (c : ChartInstance) :
  chartEffect (Some clientWidth) p s = Some c ->
  List.filter (onScale "rsi") (series c)
  = match rsi p with
    | Some r => [Line "#f472b6" (Some "rsi") r]
    | None => []
    end
  /\ List.filter (onScale "macd") (series c)
     = match macdProp p with
       | Some m => [Line "#22d3ee" (Some "macd") (macd m);
                    Line "#f97316" (Some "macd") (signal m);
                    Histogram "#a78bfa" "macd" (histogram m)]
       | None => []
       end
  /\ (length (series c) <= 9)%nat.
Proof.
  intros Hc%chartEffect_series. rewrite Hc.
  repeat match goal with |- _ /\ _ => split end;
    chart_cases p s; cbn; try reflexivity; lia.
Qed.

(** X3: the chart always starts with the candlestick series of the candles
    and the volume histogram; the RSI sub-panel holds one line exactly when
    the [rsi] prop is given (also when it is an empty array), and the MACD
    sub-panel holds the MACD line, the signal line and the histogram, in this
    order, exactly when the [macd] prop is given. *)
Theorem sub_panels_follow_props (clientWidth : nat) (p : Props) (s : ShowSMA) :
  exists (c : ChartInstance) (rest : list Series),
    chartEffect (Some clientWidth) p s = Some c
    /\ series c
       = Candlestick (candles p)
         :: VolumeHistogram "" "#4b5563" (List.map volumeBar (candles p)) :: rest
    /\ List.filter (onScale "rsi") (series c)
       = match rsi p with
         | Some r => [Line "#f472b6" (Some "rsi") r]
         | None => []
         end
    /\ List.filter (onScale "macd") (series c)
       = match macdProp p with
         | Some m => [Line "#22d3ee" (Some "macd") (macd m);
                      Line "#f97316" (Some "macd") (signal m);
                      Histogram "#a78bfa" "macd" (histogram m)]
         | None => []
         end
    /\ (length (series c) <= 9)%nat.
Proof.
  destruct (chartEffect (Some clientWidth) p s) as [c|] eqn:Hc; [|discriminate].
  exists c. eexists. split; [reflexivity|].
  split; [rewrite (chartEffect_series _ _ _ _ Hc); reflexivity|].
  exact (chart_scales _ _ _ _ Hc).
Qed.

End ChartMore.

(** ** The dashboard: failure paths and buttons *)

Section PageMore.

Import Page.

Variable rev : Revision.
Variable env : option string.

(** X4: a load that fails before its first setter (a rejected fetch, a
    history body that does not parse or is null, a news body that does not
    parse) changes nothing on the page but the status, which becomes idle:
    the candles, the series, the news, the report and the error message stay;
    one error goes to the console; no request is sent and no timer changes. *)
Theorem failed_load_keeps_the_data (w w' : World) (p : nat)
    (prices : Fetched HistoryJson) (newsRes : Fetched NewsJson) :
  loadAborts prices newsRes = true ->
  step rev env w (LoadSettled p prices newsRes) = Some w' ->
  ui w' = setStatus idle (ui w)
  /\ (exists e : string, console w' = (console w ++ [Some e])%list)
  /\ sent w' = sent w
  /\ timers w' = timers w
  /\ awaiting w' = delete p (awaiting w).
Proof.
  intros Ha [_ ->]%step_loadSettled.
  unfold loadSettled, loadFailed.
  destruct prices as [e1|ok1 c1 [e1| |pj]], newsRes as [e2|ok2 c2 [e2| |nj]];
    try discriminate; cbn; eauto 10.
Qed.

(** X5: when the history body parsed and the news body is null, the load has
    stored the history before it fails on the news: the candles (and, in
    the second revision, the indicator, RSI and MACD series) are those of the
    response, the news stay as they were, one error goes to the console and
    the status is idle. *)
Theorem null_news_after_stored_history (w w' : World) (p : nat) (ok1 ok2 : bool)
    (code1 code2 : nat) (pricesJson : HistoryJson) :
  step rev env w
    (LoadSettled p (Response ok1 code1 (Json pricesJson)) (Response ok2 code2 JsonNull))
  = Some w' ->
  candles (ui w') = h_candles pricesJson
  /\ indicators (ui w')
     = (if second rev then JS.or (h_indicators pricesJson) emptyIndicators
        else indicators (ui w))
  /\ rsiSeries (ui w') = (if second rev then JS.or (h_rsi pricesJson) [] else rsiSeries (ui w))
  /\ macdSeries (ui w') = (if second rev then h_macd pricesJson else macdSeries (ui w))
  /\ news (ui w') = news (ui w)
  /\ status (ui w') = idle
  /\ exists e : string, console w' = (console w ++ [Some e])%list.
Proof.
  intros [_ ->]%step_loadSettled.
  unfold loadSettled, loadFailed, inSecond. destruct rev; cbn; eauto 10.
Qed.

(** X6: an analyze request that fails (a rejected fetch, a body that does
    not parse or is null, and in the second revision a response that is not
    ok) starts no polling: no timer is armed and no request is sent; the
    status is idle, one error goes to the console, the report stays, and the
    second revision shows its fixed message. *)
Theorem failed_analyze_starts_no_polling (w w' : World) (p : nat) (res : Fetched AnalyzeJson) :
  analyzeFails rev res = true ->
  step rev env w (AnalyzeSettled p res) = Some w' ->
  timers w' = timers w
  /\ nextTimer w' = nextTimer w
  /\ sent w' = sent w
  /\ status (ui w') = idle
  /\ report (ui w') = report (ui w)
  /\ errorMsg (ui w')
     = (if second rev then "Analyze request failed. Check API key / backend logs."
        else errorMsg (ui w))
  /\ exists e : string, console w' = (console w ++ [Some e])%list.
Proof.
  intros Hf Hstep. unfold step in Hstep.
  destruct (awaiting w !! p) as [[| |]|]; try discriminate. injection Hstep as <-.
  unfold analyzeSettled, analyzeFailed, inSecond.
  destruct rev, res as [e|[] code [e| |j]]; try discriminate; cbn; eauto 10.
Qed.


(** X8: a click on Analyze clears the report and, in the second revision,
    the error message, and leaves the market data as it is; the insight
    panel then shows its placeholder (with the note "Analyzing…" in the
    second revision); Analyze is disabled and reads "Analyzing...", while
    Refresh stays enabled. *)
Theorem analyze_click_clears_the_report (w w' : World) :
  step rev env w ClickAnalyze = Some w' ->
  report (ui w') = emptyReport
  /\ errorMsg (ui w') = (if second rev then "" else errorMsg (ui w))
  /\ (candles (ui w'), news (ui w'), ticker (ui w'), selectedFrame (ui w'))
     = (candles (ui w), news (ui w), ticker (ui w), selectedFrame (ui w))
  /\ insightPanel rev (ui w')
     = Paragraph "Trigger analysis to see the autonomous report."
       :: (if second rev then [Paragraph "Analyzing…"] else [])
  /\ analyzeDisabled (ui w') = true
  /\ analyzeLabel (ui w') = "Analyzing..."
  /\ refreshDisabled (ui w') = false
  /\ timers w' = timers w
  /\ awaiting w' = <[nextPromise w := PAnalyze]> (awaiting w).
Proof.
  intros Hstep. unfold step in Hstep.
  destruct (analyzeDisabled (ui w)); [discriminate|]. injection Hstep as <-.
  unfold handleAnalyze, inSecond, insightPanel. destruct rev; cbn; auto 10.
Qed.

(** X9: a poll response without a terminal status (a rejected fetch, a body
    that does not parse or is null, a status other than "complete" and
    "error", or none at all) is dropped: the page state, the console, the
    timers and the log of requests stay as they are; only its promise is
    gone. *)
Theorem other_poll_responses_are_dropped (w w' : World) (p : nat) (res : Fetched TaskJson) :
  terminalResponse res = false ->
  step rev env w (PollSettled p res) = Some w' ->
  ui w' = ui w
  /\ console w' = console w
  /\ timers w' = timers w
  /\ sent w' = sent w
  /\ now w' = now w
  /\ awaiting w' = delete p (awaiting w).
Proof.
  intros Hres (id & taskId & _ & ->)%step_pollSettled.
  destruct res as [e|ok code [e| |task]]; cbn [pollSettled]; auto 10.
  cbn in Hres. rewrite onTask_other by assumption. auto 10.
Qed.

(** X10: a click on the time frame that is already selected does nothing;
    a click on another one, in any status of the page, selects it and starts
    a load: the status is loading and the history request carries the ticker
    of the state and the period and interval of the new frame. There are
    four time frames. *)
Theorem frame_click_reloads_with_the_new_frame (w w' : World) (i : nat) :
  step rev env w (SelectFrame i) = Some w' ->
  exists f : Frame,
    TIMEFRAMES !! i = Some f
    /\ (i < 4)%nat
    /\ (f = selectedFrame (ui w) -> w' = w)
    /\ (f <> selectedFrame (ui w) ->
        selectedFrame (ui w') = f
        /\ status (ui w') = loading
        /\ ticker (ui w') = ticker (ui w)
        /\ sent w'
           = (sent w
              ++ [(now w, get (API_BASE rev env ++ "/api/market/history?ticker="
                               ++ ticker (ui w) ++ "&period=" ++ period f
                               ++ "&interval=" ++ interval f));
                  (now w, get (API_BASE rev env ++ "/api/market/news?ticker="
                               ++ ticker (ui w)))])%list
        /\ awaiting w' = <[nextPromise w := PLoad]> (awaiting w)).
Proof.
  intros Hstep. unfold step in Hstep.
  destruct (TIMEFRAMES !! i) as [f|] eqn:Ef; [|discriminate].
  exists f. split; [reflexivity|]. split.
  { apply lookup_lt_Some in Ef. exact Ef. }
  destruct (decide (f = selectedFrame (ui w))) as [Heq|Hne]; injection Hstep as <-.
  - split; [reflexivity | contradiction].
  - split; [contradiction|]. intros _.
    unfold loadMarketData, inSecond.
    destruct rev; repeat match goal with |- _ /\ _ => split end;
      cbn; rewrite <- ?app_assoc; reflexivity.
Qed.

(** X11: Refresh can be clicked exactly when the status is not loading, so
    also while an analysis runs; the click sets the status to loading, sends
    the history and the news request for the ticker and the time frame of the
    state, and leaves the data, the report and the timers as they are. *)
Theorem refresh_is_gated_on_loading_only (w : World) :
  (status (ui w) = loading <-> step rev env w ClickRefresh = None)
  /\ forall w' : World,
       step rev env w ClickRefresh = Some w' ->
       status (ui w') = loading
       /\ (candles (ui w'), news (ui w'), report (ui w'), ticker (ui w'),
           selectedFrame (ui w'))
          = (candles (ui w), news (ui w), report (ui w), ticker (ui w),
             selectedFrame (ui w))
       /\ sent w'
          = (sent w
             ++ [(now w, get (historyUrl rev env (ticker (ui w)) (selectedFrame (ui w))));
                 (now w, get (newsUrl rev env (ticker (ui w))))])%list
       /\ timers w' = timers w.
Proof.
  unfold step, refreshDisabled. split.
  - destruct (bool_decide (status (ui w) = loading)) eqn:E.
    + apply bool_decide_eq_true in E. tauto.
    + apply bool_decide_eq_false in E. split; [contradiction | discriminate].
  - intros w'. destruct (bool_decide (status (ui w) = loading)); [discriminate|].
    intros [= <-]. unfold loadMarketData, inSecond.
    destruct rev; repeat match goal with |- _ /\ _ => split end;
      cbn; rewrite <- ?app_assoc; reflexivity.
Qed.


(** X13: the news panel has one card per news item, in the order of the
    items, each with the link, the title, the badge and the excerpt of its
    item; the placeholder is shown exactly when there are no items. *)
Theorem news_panel_has_a_card_per_item (s : State) :
  length (newsPanel s) = Nat.max 1 (length (news s))
  /\ (In (Paragraph noNews) (newsPanel s) <-> news s = [])
  /\ (news s <> [] ->
      newsPanel s
      = List.map (fun item => NewsCard (url item) (title item) (badge item) (excerpt item))
                 (news s)).
Proof.
  unfold newsPanel. destruct (news s) as [|item l]; cbn.
  - split; [reflexivity|]. split; [tauto | congruence].
  - rewrite length_map. split; [reflexivity|]. split; [|reflexivity].
    split; [|discriminate]. intros [H|H]; [discriminate|].
    apply in_map_iff in H as (x & Hx & _). discriminate.
Qed.

(** X14: the insight panel shows a report only when it has a non-empty
    executive summary. After a "complete" poll response whose draft has one,
    the panel is the six fields of the draft, and no error message even if
    one is stored; after a "complete" response without a draft, or with a
    draft whose executive summary is missing or empty, the panel still shows
    the placeholder, whatever the other fields of the draft are. *)
Theorem insight_panel_needs_a_summary (w w' : World) (p : nat) (ok : bool) (code : nat)
    (task : TaskJson) :
  t_status task = Some "complete" ->
  step rev env w (PollSettled p (Response ok code (Json task))) = Some w' ->
  (forall (draft : Report) (c : ascii) (rest : string),
      draftOf task = Some draft ->
      executive_summary draft = Some (String c rest) ->
      insightPanel rev (ui w')
      = [Paragraph ("Executive Summary: " ++ String c rest);
         Paragraph ("Technical Outlook: " ++ field (technical_outlook draft));
         Paragraph ("Risks: " ++ field (risks draft));
         Paragraph ("Strategy: " ++ field (strategy draft));
         Paragraph ("Confidence: " ++ field (confidence draft));
         Paragraph (field (technical_indicators draft))])
  /\ ((draftOf task = None
       \/ exists draft : Report,
            draftOf task = Some draft
            /\ (executive_summary draft = None \/ executive_summary draft = Some "")) ->
      insightPanel rev (ui w')
      = Paragraph "Trigger analysis to see the autonomous report."
        :: (if second rev && JS.truthy (errorMsg (ui w))
            then [Paragraph ("Error: " ++ errorMsg (ui w))] else [])).
Proof.
  intros Hs (id & taskId & _ & ->)%step_pollSettled.
  cbn [pollSettled]. rewrite onTask_complete by assumption.
  unfold insightPanel. cbn. split.
  - intros draft c rest -> Hsum. cbn. rewrite Hsum. reflexivity.
  - intros [-> | (draft & -> & [Hsum | Hsum])]; cbn; rewrite ?Hsum; cbn;
      rewrite andb_false_r; reflexivity.
Qed.

(** X15: what the chart of the dashboard draws after a load whose two bodies
    parsed. A history body without candles leaves the candles undefined and
    the chart effect throws. With candles, the chart has their volume bars;
    in the second revision it always has an RSI line (with no points when the
    body has no [rsi]) and it has the MACD sub-panel exactly when the body
    has [macd]; in the first revision it has the candles and the volume bars
    and nothing else. *)
Theorem chart_after_a_load (w w' : World) (p clientWidth : nat) (ok1 ok2 : bool)
    (code1 code2 : nat) (pricesJson : HistoryJson) (newsJson : NewsJson)
    (show : Chart.ShowSMA) :
  step rev env w
    (LoadSettled p (Response ok1 code1 (Json pricesJson)) (Response ok2 code2 (Json newsJson)))
  = Some w' ->
  renderChart rev None show (ui w') = NotMounted
  /\ (h_candles pricesJson = None ->
      renderChart rev (Some clientWidth) show (ui w') = Threw)
  /\ (forall cs : list Chart.Candle,
        h_candles pricesJson = Some cs ->
        exists c : Chart.ChartInstance,
          renderChart rev (Some clientWidth) show (ui w') = Drew c
          /\ Chart.width c = clientWidth
          /\ Chart.volumePanel c = [List.map Chart.volumeBar cs]
          /\ (rev = Rev1 ->
              Chart.series c
              = [Chart.Candlestick cs;
                 Chart.VolumeHistogram "" "#4b5563" (List.map Chart.volumeBar cs)])
          /\ (rev = Rev2 ->
              List.filter (Chart.onScale "rsi") (Chart.series c)
              = [Chart.Line "#f472b6" (Some "rsi")
                   match h_rsi pricesJson with Some r => r | None => [] end]
              /\ List.filter (Chart.onScale "macd") (Chart.series c)
                 = match h_macd pricesJson with
                   | Some m => [Chart.Line "#22d3ee" (Some "macd") (Chart.macd m);
                                Chart.Line "#f97316" (Some "macd") (Chart.signal m);
                                Chart.Histogram "#a78bfa" "macd" (Chart.histogram m)]
                   | None => []
                   end)).
Proof.
  intros [_ ->]%step_loadSettled.
  set (s' := ui (loadSettled rev (Response ok1 code1 (Json pricesJson))
                   (Response ok2 code2 (Json newsJson)) (settle p w))).
  assert (candles s' = h_candles pricesJson) as Hcandles
    by (unfold s', loadSettled, inSecond; destruct rev; reflexivity).
  assert (rev = Rev2 ->
          rsiSeries s' = JS.or (h_rsi pricesJson) [] /\ macdSeries s' = h_macd pricesJson)
    as Hseries by (intros ->; split; reflexivity).
  clearbody s'.
  split; [reflexivity|]. split.
  - intros Hc. unfold renderChart. now rewrite Hcandles, Hc.
  - intros cs Hc. unfold renderChart. rewrite Hcandles, Hc.
    destruct (Chart.chartEffect (Some clientWidth) (chartProps rev cs s') show)
      as [c|] eqn:Ec; [|discriminate].
    exists c. split; [reflexivity|].
    pose proof (volumePanel_effect clientWidth (chartProps rev cs s') show) as Hv.
    rewrite Ec in Hv. injection Hv as Hv.
    pose proof (chartEffect_series _ _ _ _ Ec) as Hall.
    destruct (chart_scales _ _ _ _ Ec) as (Hrsi & Hmacd & _).
    split; [cbn in Ec; now injection Ec as <-|].
    split; [exact Hv|]. split.
    + intros ->. rewrite Hall. reflexivity.
    + intros ->. destruct (Hseries eq_refl) as [Hr Hm].
      rewrite Hrsi, Hmacd. cbn. rewrite Hr, Hm.
      split; [|reflexivity]. destruct (h_rsi pricesJson); reflexivity.
Qed.

End PageMore.

(** ** The dashboard: promises and the log of requests *)

Section ReachMore.

Import Page.

Variable rev : Revision.
Variable env : option string.

Ltac unfold_handlers :=
  unfold loadSettled, analyzeSettled, pollSettled, analyzeFailed, loadFailed,
    loadMarketData, handleAnalyze, pollTick, pollTask, inSecond;
  destruct rev; cbn; split_cases; cbn; try reflexivity.

(** How one turn of the event loop changes the parked functions: an event
    that settles a promise removes it, an event that runs a handler to its
    first [await] parks it under a fresh number, any other event changes
    nothing. *)
Lemma step_promises (w w' : World) (e : Event) :
  step rev env w e = Some w' ->
  match settles e with
  | Some p =>
      is_Some (awaiting w !! p)
      /\ awaiting w' = delete p (awaiting w) /\ nextPromise w' = nextPromise w
  | None =>
      (awaiting w' = awaiting w /\ nextPromise w' = nextPromise w)
      \/ exists k, awaiting w' = <[nextPromise w := k]> (awaiting w)
                   /\ nextPromise w' = S (nextPromise w)
  end.
Proof.
  intros H. destruct e; cbn [settles].
  - step_inv H. auto.
  - step_inv H; [auto|]. right. exists PLoad.
    unfold loadMarketData, inSecond. destruct rev; auto.
  - step_inv H. right. exists PLoad. unfold loadMarketData, inSecond. destruct rev; auto.
  - step_inv H. right. exists PAnalyze. unfold handleAnalyze, inSecond. destruct rev; auto.
  - apply step_loadSettled in H as [Hp ->]. split; [eauto|]. split; unfold_handlers.
  - unfold step in H. destruct (awaiting w !! p) as [[| |]|] eqn:Ep; try discriminate.
    injection H as <-. split; [eauto|]. split; unfold_handlers.
  - step_inv H. right. eexists. split; reflexivity.
  - apply step_pollSettled in H as (id & taskId & Hp & ->). split; [eauto|].
    destruct res as [|? ? [| |task]]; try (split; reflexivity). cbn [pollSettled].
    destruct (onTask_timers rev id task (settle p w)) as (_ & _ & _ & -> & ->).
    split; reflexivity.
  - step_inv H. auto.
Qed.


Lemma step_issued (w w' : World) (e : Event) :
  (forall p, is_Some (awaiting w !! p) -> (p < nextPromise w)%nat) ->
  step rev env w e = Some w' ->
  forall p, is_Some (awaiting w' !! p) -> (p < nextPromise w')%nat.
Proof.
  intros Hw Hstep%step_promises p.
  destruct (settles e) as [q|].
  - destruct Hstep as (_ & -> & ->). intros [k [_ Hk]%lookup_delete_Some]. eauto.
  - destruct Hstep as [[-> ->]|(k & -> & ->)]; [auto|].
    intros [k' [[<- _]|[_ Hk]]%lookup_insert_Some]; [lia|].
    specialize (Hw p (ex_intro _ k' Hk)). lia.
Qed.

Lemma mounted_issued (p : nat) :
  is_Some (awaiting (mounted rev env) !! p) -> (p < nextPromise (mounted rev env))%nat.
Proof.
  unfold mounted, loadMarketData, inSecond.
  destruct rev; cbn; intros [k [[<- _]|[_ Hk]]%lookup_insert_Some]; try lia;
    now rewrite lookup_empty in Hk.
Qed.


(** *** The log of requests *)





Lemma prefix_append (a b : string) : String.prefix a (a ++ b) = true.
Proof.
  induction a as [|c a IH]; simpl; [destruct b; reflexivity|].
  destruct (ascii_dec c c); [exact IH | contradiction].
Qed.

Lemma emitted_base (w : World) (e : Event) (a : N * Request) :
  In a (emitted rev env w e) -> String.prefix (API_BASE rev env) (target (snd a)) = true.
Proof.
  unfold emitted. destruct e; split_cases; cbn; intuition (subst; apply prefix_append).
Qed.

(** X18: every request of the page goes to one base address. The first
    revision always uses http://localhost:8000; the second uses
    NEXT_PUBLIC_API_BASE when it is set and not empty, and the same default
    otherwise. In every state the page reaches, the target of every request
    sent so far starts with this address. *)
Theorem requests_go_to_the_api_base (es : list Event) (w : World) :
  run rev env (mounted rev env) es = Some w ->
  API_BASE rev env
  = match rev, env with
    | Rev2, Some (String c rest) => String c rest
    | _, _ => "http://localhost:8000"
    end
  /\ API_BASE rev env <> ""
  /\ forall a, In a (sent w) -> String.prefix (API_BASE rev env) (target (snd a)) = true.
Proof.
  intros Hrun. split; [|split].
  - unfold API_BASE. destruct rev, env as [[|c rest]|]; reflexivity.
  - unfold API_BASE. destruct rev, env as [[|c rest]|]; discriminate.
  - revert Hrun.
    apply (run_invariant rev env
             (fun w => forall a, In a (sent w) ->
                                 String.prefix (API_BASE rev env) (target (snd a)) = true)).
    + intros w0 e w1 Hb Hstep a. rewrite (step_sent _ _ _ _ _ Hstep).
      intros [Ha|Ha]%in_app_iff; eauto using emitted_base.
    + rewrite mounted_sent. intros a [<-|[<-|[]]]; apply prefix_append.
Qed.

(** *** A busy status has a cause *)

(** The function an event parks, if it runs a handler to its first [await]. *)
Lemma step_parks (w w' : World) (e : Event) :
  step rev env w e = Some w' ->
  settles e = None ->
  (awaiting w' = awaiting w /\ status (ui w') = status (ui w))
  \/ (awaiting w' = <[nextPromise w := PLoad]> (awaiting w) /\ status (ui w') = loading)
  \/ (awaiting w' = <[nextPromise w := PAnalyze]> (awaiting w)
      /\ status (ui w') = analyzing)
  \/ (exists id t, awaiting w' = <[nextPromise w := PPoll id t]> (awaiting w)
                   /\ status (ui w') = status (ui w)).
Proof.
  intros H Hs. destruct e; try discriminate.
  - step_inv H. auto.
  - step_inv H; [auto|]. right. left. unfold loadMarketData, inSecond. destruct rev; auto.
  - step_inv H. right. left. unfold loadMarketData, inSecond. destruct rev; auto.
  - step_inv H. right. right. left. unfold handleAnalyze, inSecond. destruct rev; auto.
  - step_inv H. right. right. right. eauto.
  - step_inv H. auto.
Qed.

(** The kind of function a settling event resumes. *)
Lemma step_resumes (w w' : World) (e : Event) (p : nat) :
  step rev env w e = Some w' ->
  settles e = Some p ->
  exists k : Pending,
    awaiting w !! p = Some k
    /\ match e, k with
       | LoadSettled _ _ _, PLoad | AnalyzeSettled _ _, PAnalyze
       | PollSettled _ _, PPoll _ _ => True
       | _, _ => False
       end.
Proof.
  intros H Hs. destruct e; try discriminate; injection Hs as ->.
  - apply step_loadSettled in H as [Hp _]. exists PLoad. now split.
  - unfold step in H. destruct (awaiting w !! p) as [[| |]|] eqn:Ep; try discriminate.
    exists PAnalyze. now split.
  - apply step_pollSettled in H as (id & t & Hp & _). exists (PPoll id t). now split.
Qed.

(** An analyze response that passes the checks arms a polling timer. *)
Lemma step_analyze_arms (w w' : World) (p : nat) (res : Fetched AnalyzeJson) :
  step rev env w (AnalyzeSettled p res) = Some w' ->
  analyzeFails rev res = false ->
  is_Some (timers w' !! nextTimer w).
Proof.
  intros H Ef. unfold step in H.
  destruct (awaiting w !! p) as [[| |]|]; try discriminate.
  injection H as <-.
  destruct res as [|ok code [| |j]]; cbn in Ef; try discriminate;
    try (rewrite orb_true_r in Ef; discriminate).
  rewrite orb_false_r in Ef. cbn. rewrite Ef. cbn.
  rewrite lookup_insert_eq. eauto.
Qed.

(** An event that settles nothing clears no timer. *)
Lemma step_timer_survives (w w' : World) (e : Event) (id : nat) :
  step rev env w e = Some w' ->
  settles e = None ->
  is_Some (timers w !! id) -> is_Some (timers w' !! id).
Proof.
  intros H Es Hid.
  destruct (step_timers rev env _ _ _ H)
    as [-> _ _ _ | ? ? ? ? -> | id' iv _ Hiv _ -> _ _ | ? ? ? ? ->]; try discriminate.
  - assumption.
  - destruct (decide (id' = id)) as [->|Hne].
    + rewrite lookup_insert_eq. eauto.
    + now rewrite lookup_insert_ne.
Qed.

(** X19: a busy status always has a cause. In every state the page reaches,
    the status loading comes with a market-data load whose fetches are still
    outstanding, and the status analyzing comes with an analysis in flight:
    an analyze request that is outstanding or a polling timer that is armed. *)
Theorem a_busy_status_has_a_cause (es : list Event) (w : World) :
  run rev env (mounted rev env) es = Some w ->
  (status (ui w) = loading -> exists p, awaiting w !! p = Some PLoad)
  /\ (status (ui w) = analyzing ->
      (exists p, awaiting w !! p = Some PAnalyze) \/ exists id, is_Some (timers w !! id)).
Proof.
  intros Hrun.
  enough ((forall q, is_Some (awaiting w !! q) -> (q < nextPromise w)%nat)
          /\ (status (ui w) = loading -> exists p, awaiting w !! p = Some PLoad)
          /\ (status (ui w) = analyzing ->
              (exists p, awaiting w !! p = Some PAnalyze)
              \/ exists id, is_Some (timers w !! id))) as H by apply H.
  revert Hrun.
  apply (run_invariant rev env
           (fun w => (forall q, is_Some (awaiting w !! q) -> (q < nextPromise w)%nat)
                     /\ (status (ui w) = loading -> exists p, awaiting w !! p = Some PLoad)
                     /\ (status (ui w) = analyzing ->
                         (exists p, awaiting w !! p = Some PAnalyze)
                         \/ exists id, is_Some (timers w !! id)))).
  - intros w0 e w1 (Hissued & Hload & Hana) Hstep.
    split; [eapply step_issued; eassumption|].
    assert (forall q k, awaiting w0 !! q = Some k -> q <> nextPromise w0) as Hfresh.
    { intros q k Hq ->. specialize (Hissued _ (ex_intro _ k Hq)). lia. }
    pose proof (step_status rev env _ _ _ Hstep) as Hstatus.
    pose proof (step_timers rev env _ _ _ Hstep) as Htimers.
    destruct (settles e) as [p|] eqn:Es.
    + destruct (step_resumes _ _ _ _ Hstep Es) as (k & Hk & Hkind).
      pose proof (step_promises _ _ _ Hstep) as Hprom. rewrite Es in Hprom.
      destruct Hprom as (_ & Ha & _).
      assert (forall q k', k' <> k -> awaiting w0 !! q = Some k' ->
                           awaiting w1 !! q = Some k') as Hkeep.
      { intros q k' Hne Hq. rewrite Ha. apply lookup_delete_Some.
        split; [congruence|assumption]. }
      destruct e; try discriminate; destruct k; try contradiction; rewrite Hstatus.
      * split; discriminate.
      * destruct (analyzeFails rev res) eqn:Ef; [split; discriminate|]. split.
        -- intros (q & Hq)%Hload. exists q. apply Hkeep; [discriminate | assumption].
        -- intros _. right. exists (nextTimer w0). eapply step_analyze_arms; eassumption.
      * destruct (terminalResponse res) eqn:Et; [split; discriminate|]. split.
        -- intros (q & Hq)%Hload. exists q. apply Hkeep; [discriminate | assumption].
        -- intros [(q & Hq)|(id & Hid)]%Hana.
           ++ left. exists q. apply Hkeep; [discriminate | assumption].
           ++ right. exists id.
              destruct Htimers
                as [-> _ _ _ | ? ? ? ? [=] | ? ? [=] | p' id' t' res' [= <- <-] _ Ht' _ _];
                [assumption | congruence].
    + assert (forall id, is_Some (timers w0 !! id) -> is_Some (timers w1 !! id)) as Hsurv
        by (intros id; eapply step_timer_survives; eassumption).
      destruct (step_parks _ _ _ Hstep Es)
        as [[Ha Hs]|[[Ha Hs]|[[Ha Hs]|(id & t & Ha & Hs)]]]; rewrite Ha, Hs.
      * split; [assumption|].
        intros [Hq|(id & Hid)]%Hana; [now left | right; eauto].
      * split; [|discriminate]. intros _. exists (nextPromise w0). apply lookup_insert_eq.
      * split; [discriminate|]. intros _. left. exists (nextPromise w0).
        apply lookup_insert_eq.
      * split.
        -- intros (q & Hq)%Hload. exists q. rewrite lookup_insert_ne; [assumption|].
           intros <-. eapply Hfresh; eauto.
        -- intros [(q & Hq)|(id' & Hid)]%Hana; [left | right; eauto].
           exists q. rewrite lookup_insert_ne; [assumption|].
           intros <-. eapply Hfresh; eauto.
  - split; [exact mounted_issued|]. split.
    + intros _. exists 0%nat. unfold mounted, loadMarketData, inSecond.
      destruct rev; reflexivity.
    + unfold mounted, loadMarketData, inSecond. destruct rev; discriminate.
Qed.

End ReachMore.

Section FurtherWitnesses.

Import Page.

Lemma overlay_drawn_iff_shown_and_present_witness :
  exists c : Chart.ChartInstance,
    Chart.chartEffect (Some 800%nat) Samples.overlayProps Chart.initialShowSMA = Some c
    /\ (In (Chart.Line "#60a5fa" None Samples.averages) (Chart.series c)
        <-> Chart.shown Chart.initialShowSMA "sma50" = true
            /\ Chart.indicator (Chart.indicators Samples.overlayProps) "sma50"
               = Some Samples.averages).
Proof.
  eexists. split; [reflexivity|].
  apply (overlay_drawn_iff_shown_and_present 800 Samples.overlayProps Chart.initialShowSMA
           _ "sma50" "#60a5fa" Samples.averages); [reflexivity | left; reflexivity].
Defined.

Lemma failed_load_keeps_the_data_witness :
  ui (Samples.after (Samples.world []) Samples.offline)
  = setStatus idle (ui (Samples.world []))
  /\ sent (Samples.after (Samples.world []) Samples.offline) = sent (Samples.world [])
  /\ timers (Samples.after (Samples.world []) Samples.offline) = timers (Samples.world []).
Proof.
  destruct (failed_load_keeps_the_data Rev2 None (Samples.world [])
              (Samples.after (Samples.world []) Samples.offline) 0
              (Rejected "TypeError: Failed to fetch") (Rejected "TypeError: Failed to fetch"))
    as (H1 & _ & H3 & H4 & _); [reflexivity | vm_compute; reflexivity |].
  split; [exact H1|]. split; [exact H3 | exact H4].
Defined.

Lemma null_news_after_stored_history_witness :
  candles (ui (Samples.after (Samples.world []) Samples.nullNews))
  = Some [Samples.rising; Samples.falling]
  /\ news (ui (Samples.after (Samples.world []) Samples.nullNews))
     = news (ui (Samples.world []))
  /\ status (ui (Samples.after (Samples.world []) Samples.nullNews)) = idle.
Proof.
  destruct (null_news_after_stored_history Rev2 None (Samples.world [])
              (Samples.after (Samples.world []) Samples.nullNews) 0 true true 200 200
              Samples.historyBody)
    as (H1 & _ & _ & _ & H5 & H6 & _); [vm_compute; reflexivity|].
  split; [exact H1|]. split; [exact H5 | exact H6].
Defined.

Lemma failed_analyze_starts_no_polling_witness :
  timers (Samples.after (Samples.world [Samples.loaded 0; ClickAnalyze]) (Samples.refused 1))
  = timers (Samples.world [Samples.loaded 0; ClickAnalyze])
  /\ status (ui (Samples.after (Samples.world [Samples.loaded 0; ClickAnalyze])
                               (Samples.refused 1))) = idle
  /\ errorMsg (ui (Samples.after (Samples.world [Samples.loaded 0; ClickAnalyze])
                                 (Samples.refused 1)))
     = "Analyze request failed. Check API key / backend logs.".
Proof.
  destruct (failed_analyze_starts_no_polling Rev2 None
              (Samples.world [Samples.loaded 0; ClickAnalyze])
              (Samples.after (Samples.world [Samples.loaded 0; ClickAnalyze])
                             (Samples.refused 1))
              1 (Response false 422 (Json {| task_id := None |})))
    as (H1 & _ & _ & H4 & _ & H6 & _); [reflexivity | vm_compute; reflexivity |].
  split; [exact H1|]. split; [exact H4 | exact H6].
Defined.


Lemma analyze_click_clears_the_report_witness :
  report (ui (Samples.after (Samples.world [Samples.loaded 0]) ClickAnalyze)) = emptyReport
  /\ analyzeDisabled (ui (Samples.after (Samples.world [Samples.loaded 0]) ClickAnalyze))
     = true
  /\ refreshDisabled (ui (Samples.after (Samples.world [Samples.loaded 0]) ClickAnalyze))
     = false.
Proof.
  destruct (analyze_click_clears_the_report Rev2 None (Samples.world [Samples.loaded 0])
              (Samples.after (Samples.world [Samples.loaded 0]) ClickAnalyze))
    as (H1 & _ & _ & _ & H5 & _ & H7 & _); [vm_compute; reflexivity|].
  split; [exact H1|]. split; [exact H5 | exact H7].
Defined.

Lemma other_poll_responses_are_dropped_witness :
  ui (Samples.after (Samples.world Samples.polled) Samples.running)
  = ui (Samples.world Samples.polled)
  /\ timers (Samples.after (Samples.world Samples.polled) Samples.running)
     = timers (Samples.world Samples.polled).
Proof.
  destruct (other_poll_responses_are_dropped Rev2 None (Samples.world Samples.polled)
              (Samples.after (Samples.world Samples.polled) Samples.running) 2
              (Response true 200
                 (Json {| t_status := Some "running"; t_result := None; t_error := None |})))
    as (H1 & _ & H3 & _); [reflexivity | vm_compute; reflexivity |].
  split; [exact H1 | exact H3].
Defined.

Lemma frame_click_reloads_with_the_new_frame_witness :
  exists f : Frame,
    TIMEFRAMES !! 1%nat = Some f
    /\ (f <> selectedFrame (ui (Samples.world [Samples.loaded 0])) ->
        selectedFrame (ui (Samples.after (Samples.world [Samples.loaded 0]) (SelectFrame 1)))
        = f
        /\ status (ui (Samples.after (Samples.world [Samples.loaded 0]) (SelectFrame 1)))
           = loading).
Proof.
  destruct (frame_click_reloads_with_the_new_frame Rev2 None
              (Samples.world [Samples.loaded 0])
              (Samples.after (Samples.world [Samples.loaded 0]) (SelectFrame 1)) 1)
    as (f & Hf & _ & _ & Hne); [vm_compute; reflexivity|].
  exists f. split; [exact Hf|]. intros H.
  destruct (Hne H) as (H1 & H2 & _). split; [exact H1 | exact H2].
Defined.

Lemma refresh_is_gated_on_loading_only_witness :
  step Rev2 None (Samples.world []) ClickRefresh = None
  /\ status (ui (Samples.after (Samples.world [Samples.loaded 0]) ClickRefresh)) = loading.
Proof.
  split.
  - apply (proj1 (refresh_is_gated_on_loading_only Rev2 None (Samples.world []))).
    vm_compute; reflexivity.
  - destruct (proj2 (refresh_is_gated_on_loading_only Rev2 None
                       (Samples.world [Samples.loaded 0]))
                    (Samples.after (Samples.world [Samples.loaded 0]) ClickRefresh))
      as (H & _); [vm_compute; reflexivity | exact H].
Defined.


Lemma news_panel_has_a_card_per_item_witness :
  length (newsPanel Samples.withNews) = 2%nat
  /\ newsPanel Samples.withNews
     = List.map (fun item => NewsCard (url item) (title item) (badge item) (excerpt item))
                [Samples.zeroScoreItem; Samples.scoredItem].
Proof.
  destruct (news_panel_has_a_card_per_item Samples.withNews) as (H1 & _ & H3).
  split; [exact H1|]. apply H3. discriminate.
Defined.

Lemma insight_panel_needs_a_summary_witness :
  insightPanel Rev2 (ui (Samples.after (Samples.world Samples.polled) Samples.completed))
  = [Paragraph ("Executive Summary: " ++ "Steady.");
     Paragraph ("Technical Outlook: " ++ field (technical_outlook Samples.steadyDraft));
     Paragraph ("Risks: " ++ field (risks Samples.steadyDraft));
     Paragraph ("Strategy: " ++ field (strategy Samples.steadyDraft));
     Paragraph ("Confidence: " ++ field (confidence Samples.steadyDraft));
     Paragraph (field (technical_indicators Samples.steadyDraft))].
Proof.
  destruct (insight_panel_needs_a_summary Rev2 None (Samples.world Samples.polled)
              (Samples.after (Samples.world Samples.polled) Samples.completed) 2 true 200
              Samples.completeTask) as [H _]; [reflexivity | vm_compute; reflexivity |].
  apply (H Samples.steadyDraft "S"%char "teady."); reflexivity.
Defined.

Lemma chart_after_a_load_witness :
  exists c : Chart.ChartInstance,
    renderChart Rev2 (Some 800%nat) Chart.initialShowSMA
                (ui (Samples.world [Samples.loaded 0])) = Drew c
    /\ Chart.width c = 800%nat
    /\ Chart.volumePanel c = [List.map Chart.volumeBar [Samples.rising; Samples.falling]].
Proof.
  destruct (chart_after_a_load Rev2 None (Samples.world [])
              (Samples.world [Samples.loaded 0]) 0 800 true true 200 200
              Samples.historyBody {| n_news := Some [] |} Chart.initialShowSMA)
    as (_ & _ & H); [vm_compute; reflexivity|].
  destruct (H [Samples.rising; Samples.falling] eq_refl) as (c & H1 & H2 & H3 & _).
  exists c. split; [exact H1|]. split; [exact H2 | exact H3].
Defined.



Lemma requests_go_to_the_api_base_witness :
  List.Forall (fun a => String.prefix "http://localhost:8000" (target (snd a)) = true)
              (sent (Samples.world Samples.polled)).
Proof.
  apply List.Forall_forall.
  destruct (requests_go_to_the_api_base Rev2 None Samples.polled
              (Samples.world Samples.polled)) as (_ & _ & H); [vm_compute; reflexivity|].
  exact H.
Defined.

Lemma a_busy_status_has_a_cause_witness :
  status (ui (Samples.world Samples.refreshed)) = loading
  /\ exists p, awaiting (Samples.world Samples.refreshed) !! p = Some PLoad.
Proof.
  split; [vm_compute; reflexivity|].
  destruct (a_busy_status_has_a_cause Rev2 None Samples.refreshed
              (Samples.world Samples.refreshed)) as (H & _); [vm_compute; reflexivity|].
  apply H. vm_compute; reflexivity.
Defined.

End FurtherWitnesses.
